(** * pwa_backend: the Express service of [src/index.js]

    A shallow embedding of the authentication middleware [auth] and of the
    six route handlers of [src/index.js] (the file [src/unnamed/part_000]
    carries the same middleware and handlers and differs only in its CORS
    set-up and its listen call).

    The handlers talk to three collaborators: the Supabase identity provider
    ([supabase.auth...]), the Supabase [profiles] table
    ([supabase.from("profiles")...]) and the [jsonwebtoken] codec
    ([jwt.sign], [jwt.verify]).  Every such call is an [Event]; a handler is a
    finite program [Prog] over these events; [run] executes a program against
    a [World] (the table and the clock) and an [Env] (what the provider
    answers and which store operations fail), and records the calls made. *)

From Stdlib Require Import ZArith String Ascii List Lia Bool.
From stdpp Require Import base option list gmap strings fin_maps countable.

Local Open Scope string_scope.
Local Open Scope Z_scope.

Set Warnings "-register-all".

(** ** JavaScript values as the handlers see them *)

(** A parsed JSON value ([express.json()] fills [req.body] with these, the
    store returns rows of these).  Numbers are kept integral: the handlers
    only test a number for being zero. *)
Inductive json : Type :=
| JNull
| JBool (b : bool)
| JNum (n : Z)
| JStr (s : string)
| JArr (items : list json)
| JObj (fields : list (string * json)).

(** A JavaScript value read from a property: [None] is [undefined]. *)
Abbreviation value := (option json).

(** A JavaScript object used as a record of JSON values.  A property whose
    value is [undefined] and a property that is missing read the same and
    serialise the same ([JSON.stringify] drops both), so both are an absent
    key. *)
Abbreviation object := (gmap string json).

(** [!v] is [negb (truthy v)]. *)
Definition truthy (v : value) : bool :=
  match v with
  | None => false
  | Some JNull => false
  | Some (JBool b) => b
  | Some (JNum n) => negb (n =? 0)
  | Some (JStr s) => negb (String.eqb s "")
  | Some (JArr _) => true
  | Some (JObj _) => true
  end.

(** [v !== "admin"] is [negb (is_string "admin" v)]. *)
Definition is_string (s : string) (v : value) : bool :=
  match v with
  | Some (JStr t) => String.eqb t s
  | _ => false
  end.

(** The object literal [{ k1: v1, ..., kn: vn }]. *)
Fixpoint obj (props : list (string * value)) : object :=
  match props with
  | [] => ∅
  | (k, Some v) :: rest => <[k := v]> (obj rest)
  | (_, None) :: rest => obj rest
  end.

(** What [res.json] sends for an object literal: the defined properties, in
    the order they are written. *)
Fixpoint body_of (props : list (string * value)) : list (string * json) :=
  match props with
  | [] => []
  | (k, Some v) :: rest => (k, v) :: body_of rest
  | (_, None) :: rest => body_of rest
  end.

(** ** Requests and responses *)

Record Request : Type := mkRequest {
  authorization : option string;   (* req.headers.authorization *)
  body : object;                   (* req.body, a parsed JSON object *)
  params_id : string               (* req.params.id *)
}.

Record Response : Type := mkResponse {
  status : Z;
  payload : json
}.

(** [res.status(code).json({ message })] *)
Definition message (code : Z) (text : string) : Response :=
  mkResponse code (JObj [("message", JStr text)]).

(** [res.json(x)]: the status stays at Express's default. *)
Definition ok (x : json) : Response := mkResponse 200 x.

(** ** The session claims *)

(** The payload handed to [jwt.sign] at login. *)
Record Claims : Type := mkClaims {
  claim_id : value;
  claim_email : value;
  claim_role : value
}.

(** What [jwt.verify] returns and [auth] stores in [req.user]: the claims
    with the issue and expiry times the codec embedded, in seconds. *)
Record Session : Type := mkSession {
  claims : Claims;
  iat : Z;
  exp : Z
}.

(** ** Calls to the collaborators *)

(** [{ data, error }] as returned by [supabase.auth.admin.createUser]: the
    provider sets exactly one of the two. *)
Inductive Created : Type :=
| CreateFailed (error_message : string)
| CreatedUser (user_id : string).

(** [result] of [supabase.auth.signInWithPassword]: [result.error] and
    [result.data?.user] (its id), each possibly missing. *)
Record SignedIn : Type := mkSignedIn {
  signin_error : option string;
  signin_user : option string
}.

(** [{ data, error }] of a select. *)
Record Selected (A : Type) : Type := mkSelected {
  data : option A;
  error : option string
}.
Arguments mkSelected {A}.
Arguments data {A}.
Arguments error {A}.

Inductive Event : Type :=
| AuthCreateUser (email password : value)          (* email_confirm: true *)
| AuthSignIn (email password : value)
| AuthUpdateUserById (id : string) (email : value)
| DbInsert (row : object)
| DbSelectSingle (id : value)                      (* select("*").eq("id", id).single() *)
| DbSelectAll                                      (* select("*") *)
| DbUpdate (patch : object) (id : string)          (* update(patch).eq("id", id) *)
| JwtSign (c : Claims) (secret : string) (expires_in : Z)
| JwtVerify (token : option string) (secret : string).

Definition Reply (e : Event) : Type :=
  match e with
  | AuthCreateUser _ _ => Created
  | AuthSignIn _ _ => SignedIn
  | AuthUpdateUserById _ _ => option string        (* error.message, if any *)
  | DbInsert _ => option string
  | DbSelectSingle _ => Selected object
  | DbSelectAll => Selected (list object)
  | DbUpdate _ _ => option string
  | JwtSign _ _ _ => string
  | JwtVerify _ _ => option Session                (* None: verify threw *)
  end.

Definition is_provider_call (e : Event) : bool :=
  match e with
  | AuthCreateUser _ _ | AuthSignIn _ _ | AuthUpdateUserById _ _ => true
  | _ => false
  end.

Definition is_store_call (e : Event) : bool :=
  match e with
  | DbInsert _ | DbSelectSingle _ | DbSelectAll | DbUpdate _ _ => true
  | _ => false
  end.

Definition is_token_issue (e : Event) : bool :=
  match e with
  | JwtSign _ _ _ => true
  | _ => false
  end.

(** ** Handlers as programs *)

Inductive Prog (R : Type) : Type :=
| Ret (r : R)
| Do (e : Event) (k : Reply e -> Prog R).
Arguments Ret {R}.
Arguments Do {R}.

Fixpoint bind {A B : Type} (p : Prog A) (f : A -> Prog B) : Prog B :=
  match p with
  | Ret a => f a
  | Do e k => Do e (fun r => bind (k r) f)
  end.

Definition call (e : Event) : Prog (Reply e) := Do e Ret.

Declare Scope prog_scope.
Delimit Scope prog_scope with prog.
Notation "x <- p ;; q" := (bind p (fun x => q))
  (at level 100, p at next level, right associativity) : prog_scope.
Notation "'await' e" := (call e) (at level 10, e at level 9) : prog_scope.
Local Open Scope prog_scope.

(** [header.split(" ")]: the pieces between single space characters, empty
    pieces included. *)
Fixpoint split_on (sep : ascii) (s : string) : list string :=
  match s with
  | EmptyString => [EmptyString]
  | String c rest =>
      if Ascii.eqb c sep then EmptyString :: split_on sep rest
      else match split_on sep rest with
           | [] => [String c EmptyString]
           | piece :: pieces => String c piece :: pieces
           end
  end.

(** [header.split(" ")[1]] *)
Definition bearer_credential (header : string) : option string :=
  nth_error (split_on " "%char header) 1.

Section Service.

(** [process.env.JWT_SECRET] *)
Variable env_JWT_SECRET : option string.

Definition JWT_SECRET : string :=
  match env_JWT_SECRET with
  | Some s => if String.eqb s "" then "YOUR_SECRET_KEY" else s
  | None => "YOUR_SECRET_KEY"
  end.

(** ["7d"], in seconds. *)
Definition seven_days : Z := 7 * 24 * 60 * 60.

(** The middleware [auth]: either a response is sent and [next] is not
    called ([inl]), or [req.user] is set and the handler runs ([inr]).
    [!header] holds for a missing header and for an empty one. *)
Definition auth (req : Request) : Prog (Response + Session) :=
  match authorization req with
  | None => Ret (inl (message 401 "No token"))
  | Some header =>
      if String.eqb header "" then Ret (inl (message 401 "No token"))
      else
        let token := bearer_credential header in
        verified <- await (JwtVerify token JWT_SECRET) ;;
        match verified with
        | Some user => Ret (inr user)
        | None => Ret (inl (message 401 "Invalid token"))
        end
  end.

(** [app.post("/auth/register", ...)] *)
Definition register (req : Request) : Prog Response :=
  let email := body req !! "email" in
  let password := body req !! "password" in
  let username := body req !! "username" in
  created <- await (AuthCreateUser email password) ;;
  match created with
  | CreateFailed msg => Ret (message 400 msg)
  | CreatedUser uid =>
      _ <- await (DbInsert (obj [("id", Some (JStr uid)); ("email", email);
                                 ("username", username);
                                 ("role", Some (JStr "user"))])) ;;
      Ret (ok (JObj [("message", JStr "User registered")]))
  end.

(** [app.post("/auth/login", ...)] *)
Definition login (req : Request) : Prog Response :=
  let email := body req !! "email" in
  let password := body req !! "password" in
  result <- await (AuthSignIn email password) ;;
  match signin_error result, signin_user result with
  | Some _, _ | None, None => Ret (message 401 "Invalid credentials")
  | None, Some uid =>
      found <- await (DbSelectSingle (Some (JStr uid))) ;;
      match error found, data found with
      | Some _, _ | None, None => Ret (message 500 "Profile not found")
      | None, Some profile =>
          token <- await (JwtSign (mkClaims (profile !! "id") (profile !! "email")
                                            (profile !! "role"))
                                  JWT_SECRET seven_days) ;;
          Ret (ok (JObj [("token", JStr token);
                         ("user", JObj (body_of [("id", profile !! "id");
                                                 ("email", profile !! "email");
                                                 ("username", profile !! "username");
                                                 ("role", profile !! "role")]))]))
      end
  end.

(** [res.json] of a row. *)
Definition row_json (row : object) : json := JObj (map_to_list row).

(** [app.get("/auth/me", auth, ...)] *)
Definition me (req : Request) (user : Session) : Prog Response :=
  found <- await (DbSelectSingle (claim_id (claims user))) ;;
  match error found, data found with
  | Some _, _ | None, None => Ret (message 500 "Profile not found")
  | None, Some profile => Ret (ok (JObj [("user", row_json profile)]))
  end.

(** [app.get("/admin/all-users", auth, ...)] *)
Definition all_users (req : Request) (user : Session) : Prog Response :=
  if negb (is_string "admin" (claim_role (claims user)))
  then Ret (message 403 "Not allowed")
  else
    found <- await DbSelectAll ;;
    match error found, data found with
    | Some _, _ | None, None => Ret (message 500 "Error fetching users")
    | None, Some rows => Ret (ok (JArr (map row_json rows)))
    end.

(** [app.post("/admin/create-user", auth, ...)] *)
Definition create_user (req : Request) (user : Session) : Prog Response :=
  if negb (is_string "admin" (claim_role (claims user)))
  then Ret (message 403 "Not allowed")
  else
    let email := body req !! "email" in
    let password := body req !! "password" in
    let username := body req !! "username" in
    let role := body req !! "role" in
    if negb (truthy email) || negb (truthy password)
       || negb (truthy username) || negb (truthy role)
    then Ret (message 400 "All fields required")
    else
      created <- await (AuthCreateUser email password) ;;
      match created with
      | CreateFailed msg => Ret (message 400 msg)
      | CreatedUser uid =>
          profileError <- await (DbInsert (obj [("id", Some (JStr uid));
                                                ("email", email);
                                                ("username", username);
                                                ("role", role)])) ;;
          match profileError with
          | Some _ => Ret (message 500 "Profile insert failed")
          | None => Ret (ok (JObj [("message", JStr "User created successfully")]))
          end
      end.

(** [app.put("/admin/update-user/:id", auth, ...)] *)
Definition update_user (req : Request) (user : Session) : Prog Response :=
  if negb (is_string "admin" (claim_role (claims user)))
  then Ret (message 403 "Not allowed")
  else
    let id := params_id req in
    let email := body req !! "email" in
    let username := body req !! "username" in
    let role := body req !! "role" in
    updateError <- await (DbUpdate (obj [("email", email); ("username", username);
                                         ("role", role)]) id) ;;
    match updateError with
    | Some msg => Ret (message 400 msg)
    | None =>
        if truthy email then
          authUpdateError <- await (AuthUpdateUserById id email) ;;
          match authUpdateError with
          | Some msg => Ret (message 400 msg)
          | None => Ret (ok (JObj [("message", JStr "User updated successfully")]))
          end
        else Ret (ok (JObj [("message", JStr "User updated successfully")]))
    end.

(** The routes the application registers. *)
Inductive Route : Type :=
| PostAuthRegister
| PostAuthLogin
| GetAuthMe
| GetAdminAllUsers
| PostAdminCreateUser
| PutAdminUpdateUser.

(** Routes registered with [auth] in front of the handler. *)
Definition protected_handler (r : Route) : option (Request -> Session -> Prog Response) :=
  match r with
  | PostAuthRegister | PostAuthLogin => None
  | GetAuthMe => Some me
  | GetAdminAllUsers => Some all_users
  | PostAdminCreateUser => Some create_user
  | PutAdminUpdateUser => Some update_user
  end.

Definition is_admin_route (r : Route) : bool :=
  match r with
  | GetAdminAllUsers | PostAdminCreateUser | PutAdminUpdateUser => true
  | _ => false
  end.

(** [auth] followed by the handler: the handler runs only when [auth]
    called [next]. *)
Definition guarded (h : Request -> Session -> Prog Response) (req : Request)
  : Prog Response :=
  gate <- auth req ;;
  match gate with
  | inl rejected => Ret rejected
  | inr user => h req user
  end.

Definition serve (r : Route) (req : Request) : Prog Response :=
  match r with
  | PostAuthRegister => register req
  | PostAuthLogin => login req
  | GetAuthMe => guarded me req
  | GetAdminAllUsers => guarded all_users req
  | PostAdminCreateUser => guarded create_user req
  | PutAdminUpdateUser => guarded update_user req
  end.

End Service.

(** ** The session token codec *)

(** The two primitives the codec is built from: the serialisation of a
    payload into one segment of the token (and its inverse), and the keyed
    signature of a signing input, both rendered in an alphabet without
    ["."]. *)
Class TokenPrimitives : Type := {
  encode_session : Session -> string;
  decode_session : string -> option Session;
  hmac : string -> string -> string
}.

(** [true] when [c] does not occur in [s]. *)
Fixpoint free_of (c : ascii) (s : string) : bool :=
  match s with
  | EmptyString => true
  | String d rest => negb (Ascii.eqb d c) && free_of c rest
  end.

Class TokenLaws `{TokenPrimitives} : Prop := {
  decode_encode_session : forall s, decode_session (encode_session s) = Some s;
  encode_session_free_of_dot : forall s, free_of "."%char (encode_session s) = true;
  hmac_free_of_dot : forall key input, free_of "."%char (hmac key input) = true
}.

(** The first segment of every token the codec issues. *)
Definition token_header : string := "eyJhbGciOiJIUzI1NiIsInR5cCI6IkpXVCJ9".

Section Codec.

Context `{TokenPrimitives}.

(** Modelled from the spec: [jwt.sign] of the [jsonwebtoken] package, whose
    code is not part of the sources.  The spec (4.1): [issue] "produces a
    signed, tamper-evident string encoding the claims and an absolute expiry
    set to 7 days from issuance"; the expiry is [now + expires_in]. *)
Definition jwt_sign (now : Z) (c : Claims) (secret : string) (expires_in : Z)
  : string :=
  let signing_input :=
    token_header ++ "." ++ encode_session (mkSession c now (now + expires_in)) in
  signing_input ++ "." ++ hmac secret signing_input.

(** Modelled from the spec: [jwt.verify] of the [jsonwebtoken] package, whose
    code is not part of the sources.  The spec (4.1): [verify] "fails with
    InvalidToken if the signature does not match the configured secret, the
    structure is malformed, or the expiry has passed.  Succeeds returning the
    original claim set otherwise."  [None] is the failure; the expiry has
    passed from the second [exp] on. *)
Definition jwt_verify (now : Z) (token : option string) (secret : string)
  : option Session :=
  match token with
  | None => None
  | Some t =>
      match split_on "."%char t with
      | [header; payload_segment; signature] =>
          if String.eqb signature (hmac secret (header ++ "." ++ payload_segment))
          then match decode_session payload_segment with
               | Some session => if exp session <=? now then None else Some session
               | None => None
               end
          else None
      | _ => None
      end
  end.

End Codec.

(** ** The store, the provider and the execution of a handler *)

(** The state the handlers act on: the rows of [profiles] and the time in
    seconds.  The time does not advance while one request is served. *)
Record World : Type := mkWorld {
  profiles : list object;
  clock : Z
}.

(** What lies outside the service: the provider's answers, and the store
    operations that fail (with their error message). *)
Record Env : Type := mkEnv {
  provider_createUser : value -> value -> Created;
  provider_signIn : value -> value -> SignedIn;
  provider_updateUserById : string -> value -> option string;
  store_fault : Event -> option string
}.

(** The filter [.eq("id", id)] on a row. *)
Definition has_id (id : value) (row : object) : bool :=
  match id, row !! "id" with
  | Some (JStr wanted), Some (JStr found) => String.eqb found wanted
  | _, _ => false
  end.

(** Modelled from the spec: the update of the external store, whose code is
    not part of the sources.  The spec (4.8): "any subset updates the
    corresponding Profile columns": for [update(patch).eq("id", id)] the
    columns of the patch overwrite those of every row with that id, and the
    other columns and rows stay. *)
Definition store_update (patch : object) (id : string) (rows : list object)
  : list object :=
  map (fun row => if has_id (Some (JStr id)) row then patch ∪ row else row) rows.

(** Modelled from the spec: the select-by-id of the external store (2).
    [.single()] yields exactly one row, or an error. *)
Definition store_single (id : value) (rows : list object) : Selected object :=
  match filter (fun row => has_id id row = true) rows with
  | [row] => mkSelected (Some row) None
  | _ => mkSelected None (Some "JSON object requested, multiple (or no) rows returned")
  end.

Record Outcome (R : Type) : Type := mkOutcome {
  result : R;
  world_after : World;
  calls : list Event
}.
Arguments mkOutcome {R}.
Arguments result {R}.
Arguments world_after {R}.
Arguments calls {R}.

Section Execution.

Context `{TokenPrimitives}.
Variable env : Env.

(** One call: the reply and the state it leaves.  The provider answers as
    [env] says; the store inserts, selects and updates as the spec describes
    it (2), unless [env] makes the operation fail, and a failed operation
    changes nothing; the codec signs and verifies at the time of the
    clock. *)
Definition answer (w : World) (e : Event) : Reply e * World :=
  match e as e0 return Reply e0 * World with
  | AuthCreateUser email password => (provider_createUser env email password, w)
  | AuthSignIn email password => (provider_signIn env email password, w)
  | AuthUpdateUserById id email => (provider_updateUserById env id email, w)
  | DbInsert row =>
      match store_fault env (DbInsert row) with
      | Some msg => (Some msg, w)
      | None => (None, mkWorld (profiles w ++ [row]) (clock w))
      end
  | DbSelectSingle id =>
      match store_fault env (DbSelectSingle id) with
      | Some msg => (mkSelected None (Some msg), w)
      | None => (store_single id (profiles w), w)
      end
  | DbSelectAll =>
      match store_fault env DbSelectAll with
      | Some msg => (mkSelected None (Some msg), w)
      | None => (mkSelected (Some (profiles w)) None, w)
      end
  | DbUpdate patch id =>
      match store_fault env (DbUpdate patch id) with
      | Some msg => (Some msg, w)
      | None => (None, mkWorld (store_update patch id (profiles w)) (clock w))
      end
  | JwtSign c secret expires_in => (jwt_sign (clock w) c secret expires_in, w)
  | JwtVerify token secret => (jwt_verify (clock w) token secret, w)
  end.

Fixpoint run {R : Type} (p : Prog R) (w : World) : Outcome R :=
  match p with
  | Ret r => mkOutcome r w []
  | Do e k =>
      let (reply, w1) := answer w e in
      let rest := run (k reply) w1 in
      mkOutcome (result rest) (world_after rest) (e :: calls rest)
  end.

End Execution.

(** ** What the spec says about the bearer credential *)

(** A whitespace character of a header value, as [\s] has it on ASCII. *)
Definition is_whitespace (c : ascii) : bool :=
  match nat_of_ascii c with
  | 9%nat | 10%nat | 11%nat | 12%nat | 13%nat | 32%nat => true
  | _ => false
  end.

(** [true] when no character of [s] satisfies [p]. *)
Fixpoint none_of (p : ascii -> bool) (s : string) : bool :=
  match s with
  | EmptyString => true
  | String d rest => negb (p d) && none_of p rest
  end.

(** The pieces of [s] between characters that satisfy [p]. *)
Fixpoint split_where (p : ascii -> bool) (s : string) : list string :=
  match s with
  | EmptyString => [EmptyString]
  | String c rest =>
      if p c then EmptyString :: split_where p rest
      else match split_where p rest with
           | [] => [String c EmptyString]
           | piece :: pieces => String c piece :: pieces
           end
  end.

(** The spec's words (4.2): "split on whitespace and take the second token as
    the bearer credential". *)
Definition spec_bearer_credential (header : string) : option string :=
  nth_error (split_where is_whitespace header) 1.

(** ** An instance of the codec primitives without cryptography

    It serves to run the model on concrete requests: a payload is numbered
    (through a tree of its JSON values) and the number is written in binary;
    the signature is the number of the pair of the key and a checksum of the
    input. *)

Abbreviation leaf := (Z + string)%type.

Fixpoint json_tree (j : json) : gen_tree leaf :=
  match j with
  | JNull => GenNode 0 []
  | JBool true => GenNode 1 []
  | JBool false => GenNode 2 []
  | JNum n => GenLeaf (inl n)
  | JStr s => GenLeaf (inr s)
  | JArr items => GenNode 3 (map json_tree items)
  | JObj fields =>
      GenNode 4 (map (fun kv => let (k, v) := kv : string * json in
                                GenNode 5 [GenLeaf (inr k); json_tree v]) fields)
  end.

Fixpoint tree_json (t : gen_tree leaf) : json :=
  match t with
  | GenLeaf (inl n) => JNum n
  | GenLeaf (inr s) => JStr s
  | GenNode 1 [] => JBool true
  | GenNode 2 [] => JBool false
  | GenNode 3 items => JArr (map tree_json items)
  | GenNode 4 fields =>
      JObj (map (fun kv => match kv with
                           | GenNode _ [GenLeaf (inr k); v] => (k, tree_json v)
                           | _ => (EmptyString, JNull)
                           end) fields)
  | GenNode _ _ => JNull
  end.

Definition value_tree (v : value) : gen_tree leaf :=
  match v with
  | None => GenNode 6 []
  | Some j => GenNode 7 [json_tree j]
  end.

Definition tree_value (t : gen_tree leaf) : value :=
  match t with
  | GenNode 7 [j] => Some (tree_json j)
  | _ => None
  end.

Fixpoint binary (p : positive) : string :=
  match p with
  | xH => EmptyString
  | xO q => String "0" (binary q)
  | xI q => String "1" (binary q)
  end.

Fixpoint of_binary (s : string) : option positive :=
  match s with
  | EmptyString => Some xH
  | String c rest =>
      match of_binary rest with
      | Some q => if Ascii.eqb c "0" then Some (xO q)
                  else if Ascii.eqb c "1" then Some (xI q) else None
      | None => None
      end
  end.

Definition plain_encode (s : Session) : string :=
  binary (encode (value_tree (claim_id (claims s)),
                  value_tree (claim_email (claims s)),
                  value_tree (claim_role (claims s)), iat s, exp s)).

Definition plain_decode (text : string) : option Session :=
  match of_binary text with
  | Some p =>
      match decode p : option (gen_tree leaf * gen_tree leaf * gen_tree leaf * Z * Z) with
      | Some (i, e, r, issued, expires) =>
          Some (mkSession (mkClaims (tree_value i) (tree_value e) (tree_value r))
                          issued expires)
      | None => None
      end
  | None => None
  end.

(** The sum of the character codes of [s]. *)
Fixpoint checksum (s : string) : N :=
  match s with
  | EmptyString => 0%N
  | String c rest => (N_of_ascii c + checksum rest)%N
  end.

Definition plain_hmac (key input : string) : string :=
  binary (encode (key, checksum input)).

Definition plain_primitives : TokenPrimitives :=
  {| encode_session := plain_encode;
     decode_session := plain_decode;
     hmac := plain_hmac |}.

(** A provider that accepts every account and sign-in, and a store that never
    fails. *)
Definition easy_env : Env :=
  {| provider_createUser := fun _ _ => CreatedUser "u-1";
     provider_signIn := fun _ _ => mkSignedIn None (Some "u-1");
     provider_updateUserById := fun _ _ => None;
     store_fault := fun _ => None |}.

(** A provider that refuses everything, in front of a store that never
    fails. *)
Definition refusing_env : Env :=
  {| provider_createUser := fun _ _ => CreateFailed "User already registered";
     provider_signIn := fun _ _ => mkSignedIn (Some "Invalid login credentials") None;
     provider_updateUserById := fun _ _ => Some "Email address already in use";
     store_fault := fun _ => None |}.

(** A table with one user, at time 1000, and some requests. *)
Definition sample_row : object :=
  obj [("id", Some (JStr "u-1")); ("email", Some (JStr "a@x.com"));
       ("username", Some (JStr "a")); ("role", Some (JStr "user"))].

Definition sample_world : World := mkWorld [sample_row] 1000.

Definition sample_claims (role : string) : Claims :=
  mkClaims (Some (JStr "u-1")) (Some (JStr "a@x.com")) (Some (JStr role)).

Definition sample_token (role : string) : string :=
  @jwt_sign plain_primitives 1000 (sample_claims role) "YOUR_SECRET_KEY" seven_days.

Definition sample_session (role : string) : Session :=
  mkSession (sample_claims role) 1000 (1000 + seven_days).

Definition bearer (token : string) (fields : object) : Request :=
  mkRequest (Some ("Bearer " ++ token)) fields "u-1".

Definition anonymous (fields : object) : Request := mkRequest None fields "".

Definition tab : ascii := ascii_of_nat 9.

(** A provider that accepts every account, in front of a store that refuses
    every operation. *)
Definition failing_store_env : Env :=
  {| provider_createUser := fun _ _ => CreatedUser "u-2";
     provider_signIn := fun _ _ => mkSignedIn None (Some "u-2");
     provider_updateUserById := fun _ _ => None;
     store_fault := fun _ => Some "duplicate key value violates unique constraint" |}.

(** A registration that asks for the role ["admin"]. *)
Definition sample_registration : Request :=
  anonymous (obj [("email", Some (JStr "b@x.com")); ("password", Some (JStr "p"));
                  ("username", Some (JStr "b")); ("role", Some (JStr "admin"))]).

Definition sample_login : Request :=
  anonymous (obj [("email", Some (JStr "a@x.com")); ("password", Some (JStr "wrong"))]).

(** ** The cross-origin check *)

(** [allowedOrigins] *)
Definition allowedOrigins : list string :=
  ["http://localhost:5173"; "https://kajaclarium.github.io"].

(** The [origin] function handed to [cors] in [src/index.js]: [true] is
    [callback(null, true)], [false] is
    [callback(new Error("CORS not allowed"))].  [!origin] holds for a missing
    Origin header and for an empty one. *)
Definition cors_origin (origin : option string) : bool :=
  match origin with
  | None => true
  | Some o =>
      if String.eqb o "" then true
      else existsb (String.eqb o) allowedOrigins
  end.

(** ** More laws of the codec primitives and more sample data *)

(** The segments are rendered in an alphabet without the space. *)
Class TokenAlphabet `{TokenPrimitives} : Prop := {
  encode_session_free_of_space : forall s, free_of " "%char (encode_session s) = true;
  hmac_free_of_space : forall key input, free_of " "%char (hmac key input) = true
}.

(** The rows of a table that [.eq("id", id)] keeps. *)
Definition rows_with_id (id : value) (rows : list object) : list object :=
  filter (fun row => has_id id row = true) rows.

(** A provider that hands out the id ["u-2"], in front of a store that never
    fails. *)
Definition fresh_env : Env :=
  {| provider_createUser := fun _ _ => CreatedUser "u-2";
     provider_signIn := fun _ _ => mkSignedIn None (Some "u-2");
     provider_updateUserById := fun _ _ => None;
     store_fault := fun _ => None |}.

(** The same provider, in front of a store that refuses every insert. *)
Definition orphan_env : Env :=
  {| provider_createUser := fun _ _ => CreatedUser "u-2";
     provider_signIn := fun _ _ => mkSignedIn None (Some "u-2");
     provider_updateUserById := fun _ _ => None;
     store_fault := fun e => match e with
                             | DbInsert _ => Some "permission denied for table profiles"
                             | _ => None
                             end |}.

(** The body of an admin's request to create an admin. *)
Definition sample_creation : object :=
  obj [("email", Some (JStr "c@x.com")); ("password", Some (JStr "p"));
       ("username", Some (JStr "c")); ("role", Some (JStr "admin"))].

(** An admin's requests. *)
Definition admin_request (fields : object) (id : string) : Request :=
  mkRequest (Some ("Bearer " ++ sample_token "admin")) fields id.

(** The status codes each route answers with. *)
Definition route_statuses (r : Route) : list Z :=
  match r with
  | PostAuthRegister => [200; 400]
  | PostAuthLogin => [200; 401; 500]
  | GetAuthMe => [200; 401; 500]
  | GetAdminAllUsers => [200; 401; 403; 500]
  | PostAdminCreateUser => [200; 400; 401; 403; 500]
  | PutAdminUpdateUser => [200; 400; 401; 403]
  end.

(** An answer with one of the given statuses that, unless it is a success,
    is an object with one [message]. *)
Definition well_formed (statuses : list Z) (answer : Response) : Prop :=
  status answer ∈ statuses
  /\ (status answer <> 200 ->
      exists text, payload answer = JObj [("message", JStr text)]).

(** The table after a request: left as it was, one row longer, or updated
    with the patch an update request builds. *)
Inductive evolves (w : World) : World -> Prop :=
| evolves_same : evolves w w
| evolves_insert (row : object) :
    evolves w (mkWorld (profiles w ++ [row]) (clock w))
| evolves_update (email username role : value) (id : string) :
    evolves w (mkWorld (store_update (obj [("email", email); ("username", username);
                                           ("role", role)]) id (profiles w))
                       (clock w)).

(** * Properties *)

(** ** Execution of a sequence *)

Section Execution_lemmas.

Context `{TokenPrimitives}.
Variable env : Env.

Lemma run_bind {A B : Type} (p : Prog A) (f : A -> Prog B) (w : World) :
  run env (bind p f) w =
  let first := run env p w in
  let second := run env (f (result first)) (world_after first) in
  mkOutcome (result second) (world_after second) (calls first ++ calls second)%list.
Proof.
  revert w; induction p as [a | e k IH]; intros w; simpl.
  - destruct (run env (f a) w); reflexivity.
  - destruct (answer env w e) as [reply w1]. rewrite IH. reflexivity.
Qed.

(** The gate leaves the state alone and calls only the codec. *)
Lemma auth_touches_nothing (secret : option string) (req : Request) (w : World) :
  world_after (run env (auth secret req) w) = w /\
  Forall (fun e => is_store_call e = false /\ is_provider_call e = false)
         (calls (run env (auth secret req) w)).
Proof.
  unfold auth. destruct (authorization req) as [header |]; simpl.
  - destruct (String.eqb header ""); simpl.
    + split; [reflexivity | constructor].
    + destruct (jwt_verify (clock w) (bearer_credential header) (JWT_SECRET secret));
        simpl; (split; [reflexivity | repeat constructor]).
  - split; [reflexivity | constructor].
Qed.

(** Each admin handler answers a caller who is not an admin at once. *)
Lemma admin_handler_refuses (r : Route) (h : Request -> Session -> Prog Response)
      (req : Request) (user : Session) :
  is_admin_route r = true ->
  protected_handler r = Some h ->
  is_string "admin" (claim_role (claims user)) = false ->
  h req user = Ret (message 403 "Not allowed").
Proof.
  intros Hadmin Hh Hrole.
  destruct r; try discriminate Hadmin; injection Hh as <-;
    [unfold all_users | unfold create_user | unfold update_user];
    rewrite Hrole; reflexivity.
Qed.

Lemma serve_protected (secret : option string) (r : Route)
      (h : Request -> Session -> Prog Response) (req : Request) :
  protected_handler r = Some h -> serve secret r req = guarded secret h req.
Proof. destruct r; intros Hh; try discriminate Hh; injection Hh as <-; reflexivity. Qed.

End Execution_lemmas.

(** ** The object literals the handlers build *)

Lemma obj_lookup_last (props : list (string * value)) (k : string) (v : value) :
  Forall (fun kv => fst kv <> k) props ->
  obj (props ++ [(k, v)]) !! k = v.
Proof.
  induction props as [| [k' [v' |]] rest IH]; intros Hall; simpl.
  - destruct v; simpl; [apply lookup_insert_eq | apply lookup_empty].
  - inversion Hall; subst. rewrite lookup_insert_ne by assumption. auto.
  - inversion Hall; subst. auto.
Qed.

Section Handler_claims.

Context `{TokenPrimitives}.
Variable env : Env.

(** C1: when the identity provider accepts a registration, [register] sends
    the store one insert, of a row whose [role] is ["user"]; the row joins
    the table when the store accepts it; and a [role] put in the request
    body changes nothing of what [register] does. *)
Theorem register_stores_role_user (w : World) (req : Request) (uid : string) :
  provider_createUser env (body req !! "email") (body req !! "password")
    = CreatedUser uid ->
  let row := obj [("id", Some (JStr uid)); ("email", body req !! "email");
                  ("username", body req !! "username");
                  ("role", Some (JStr "user"))] in
  calls (run env (register req) w)
    = [AuthCreateUser (body req !! "email") (body req !! "password"); DbInsert row]
  /\ row !! "role" = Some (JStr "user")
  /\ (store_fault env (DbInsert row) = None ->
      profiles (world_after (run env (register req) w)) = (profiles w ++ [row])%list)
  /\ (forall supplied : json,
        register (mkRequest (authorization req) (<["role" := supplied]> (body req))
                            (params_id req))
        = register req).
Proof.
  intros Hcreated row. repeat split.
  - unfold register. simpl. rewrite Hcreated. simpl.
    destruct (store_fault env (DbInsert _)); reflexivity.
  - subst row.
    apply (obj_lookup_last [("id", Some (JStr uid)); ("email", body req !! "email");
                            ("username", body req !! "username")] "role").
    repeat constructor; simpl; discriminate.
  - intros Hstore. subst row. unfold register. simpl in *. rewrite Hcreated.
    simpl. rewrite Hstore. reflexivity.
  - intros supplied. unfold register. simpl.
    rewrite !lookup_insert_ne by discriminate. reflexivity.
Qed.

(** C6: when the provider's create-user call succeeds, [register] answers
    200 with [{message: "User registered"}] whatever the store replies to the
    insert ([store_fault] is arbitrary). *)
Theorem register_ignores_insert_outcome (w : World) (req : Request) (uid : string) :
  provider_createUser env (body req !! "email") (body req !! "password")
    = CreatedUser uid ->
  result (run env (register req) w)
    = mkResponse 200 (JObj [("message", JStr "User registered")]).
Proof.
  intros Hcreated. unfold register. simpl. rewrite Hcreated. simpl.
  destruct (store_fault env (DbInsert _)); reflexivity.
Qed.

(** C7: when the provider's sign-in reports an error or returns no user,
    [login] answers 401 with [{message: "Invalid credentials"}]; the sign-in
    is the only call made, so no profile is looked up and no token is
    issued. *)
Theorem login_rejects_failed_sign_in (secret : option string) (w : World) (req : Request) :
  let reply := provider_signIn env (body req !! "email") (body req !! "password") in
  signin_error reply <> None \/ signin_user reply = None ->
  run env (login secret req) w
    = mkOutcome (message 401 "Invalid credentials") w
                [AuthSignIn (body req !! "email") (body req !! "password")]
  /\ Forall (fun e => is_store_call e = false /\ is_token_issue e = false)
            (calls (run env (login secret req) w)).
Proof.
  intros reply Hfail.
  assert (Hrun : run env (login secret req) w
                 = mkOutcome (message 401 "Invalid credentials") w
                     [AuthSignIn (body req !! "email") (body req !! "password")]).
  { unfold login. simpl. fold reply.
    destruct Hfail as [Herr | Hnone].
    - destruct (signin_error reply); [| congruence]. reflexivity.
    - rewrite Hnone. destruct (signin_error reply); reflexivity. }
  split; [exact Hrun |]. rewrite Hrun. simpl. repeat constructor.
Qed.

(** C3: on each [/admin/*] route, a request that passes the gate with claims
    whose role is not ["admin"] is answered 403 with
    [{message: "Not allowed"}]; the state is unchanged and no call to the
    store or to the provider is made. *)
Theorem non_admin_is_refused (secret : option string) (r : Route) (w : World)
        (req : Request) (user : Session) :
  is_admin_route r = true ->
  result (run env (auth secret req) w) = inr user ->
  is_string "admin" (claim_role (claims user)) = false ->
  let o := run env (serve secret r req) w in
  result o = message 403 "Not allowed"
  /\ world_after o = w
  /\ Forall (fun e => is_store_call e = false /\ is_provider_call e = false) (calls o).
Proof.
  intros Hadmin Hgate Hrole o.
  assert (Hh : exists h, protected_handler r = Some h)
    by (destruct r; try discriminate Hadmin; eexists; reflexivity).
  destruct Hh as [h Hh]. subst o.
  rewrite (serve_protected secret r h req Hh). unfold guarded.
  rewrite run_bind. cbv zeta. rewrite Hgate.
  rewrite (admin_handler_refuses r h req user Hadmin Hh Hrole).
  destruct (auth_touches_nothing env secret req w) as [Hw Hcalls].
  simpl. rewrite Hw, app_nil_r. auto.
Qed.

(** C10: in [create_user] the role check comes first: a caller whose role is
    not ["admin"] is answered 403 with [{message: "Not allowed"}] without any
    call, whatever the body holds, and an answer 400 with
    [{message: "All fields required"}] implies the caller's role is
    ["admin"]. *)
Theorem create_user_checks_role_first (w : World) (req : Request) (user : Session) :
  (is_string "admin" (claim_role (claims user)) = false ->
   create_user req user = Ret (message 403 "Not allowed"))
  /\ (result (run env (create_user req user) w) = message 400 "All fields required" ->
      is_string "admin" (claim_role (claims user)) = true).
Proof.
  split.
  - intros Hrole. unfold create_user. rewrite Hrole. reflexivity.
  - intros Hanswer. destruct (is_string "admin" (claim_role (claims user))) eqn:Hrole;
      [reflexivity |].
    unfold create_user in Hanswer. rewrite Hrole in Hanswer. discriminate Hanswer.
Qed.

End Handler_claims.

(** ** Splitting a header or a token *)

Lemma split_on_free (sep : ascii) (s : string) :
  free_of sep s = true -> split_on sep s = [s].
Proof.
  induction s as [| c rest IH]; simpl; [reflexivity |].
  intros Hfree. apply andb_prop in Hfree as [Hc Hrest].
  apply negb_true_iff in Hc. rewrite Hc, (IH Hrest). reflexivity.
Qed.

Lemma split_on_first (sep : ascii) (s rest : string) :
  free_of sep s = true ->
  split_on sep (s ++ String sep rest) = s :: split_on sep rest.
Proof.
  induction s as [| c s' IH]; simpl.
  - intros _. rewrite Ascii.eqb_refl. reflexivity.
  - intros Hfree. apply andb_prop in Hfree as [Hc Hrest].
    apply negb_true_iff in Hc. rewrite Hc, (IH Hrest). reflexivity.
Qed.

Lemma split_on_three (sep : ascii) (a b c : string) :
  free_of sep a = true -> free_of sep b = true -> free_of sep c = true ->
  split_on sep ((a ++ String sep b) ++ String sep c) = [a; b; c].
Proof.
  intros Ha Hb Hc.
  assert (Hassoc : (a ++ String sep b) ++ String sep c
                   = a ++ String sep (b ++ String sep c)).
  { clear. induction a as [| x a' IH]; [reflexivity |].
    change (String x ((a' ++ String sep b) ++ String sep c)
            = String x (a' ++ String sep (b ++ String sep c))).
    rewrite IH. reflexivity. }
  rewrite Hassoc, (split_on_first sep a _ Ha), (split_on_first sep b _ Hb),
    (split_on_free sep c Hc).
  reflexivity.
Qed.

(** ** The table after an update *)

Lemma store_update_lookup (patch : object) (id : string) (rows : list object)
      (i : nat) (row : object) :
  rows !! i = Some row ->
  store_update patch id rows !! i
  = Some (if has_id (Some (JStr id)) row then patch ∪ row else row).
Proof.
  intros Hrow. unfold store_update. rewrite list_lookup_fmap, Hrow. reflexivity.
Qed.

Section Store_and_gate_claims.

Context `{TokenPrimitives}.
Variable env : Env.

(** C8: for an admin's update with a truthy [email], when the store accepts
    the update and the provider then refuses the change of e-mail,
    [update_user] answers 400 with the provider's message; the update was its
    only call to the store, so the table stays as the update left it: every
    row of that id carries the new e-mail. *)
Theorem update_user_keeps_store_write (w : World) (req : Request) (user : Session)
        (msg : string) :
  is_string "admin" (claim_role (claims user)) = true ->
  truthy (body req !! "email") = true ->
  let id := params_id req in
  let patch := obj [("email", body req !! "email");
                    ("username", body req !! "username");
                    ("role", body req !! "role")] in
  store_fault env (DbUpdate patch id) = None ->
  provider_updateUserById env id (body req !! "email") = Some msg ->
  let o := run env (update_user req user) w in
  result o = message 400 msg
  /\ calls o = [DbUpdate patch id; AuthUpdateUserById id (body req !! "email")]
  /\ profiles (world_after o) = store_update patch id (profiles w)
  /\ (forall (i : nat) (row : object),
        profiles w !! i = Some row -> has_id (Some (JStr id)) row = true ->
        exists row', profiles (world_after o) !! i = Some row'
                     /\ row' !! "email" = body req !! "email").
Proof.
  intros Hadmin Hemail id patch Hstore Hprovider o.
  assert (Hrun : o = mkOutcome (message 400 msg)
                       (mkWorld (store_update patch id (profiles w)) (clock w))
                       [DbUpdate patch id; AuthUpdateUserById id (body req !! "email")]).
  { subst o. unfold update_user. rewrite Hadmin. cbn [negb].
    fold id. fold patch. unfold call. cbn [bind run answer]. rewrite Hstore.
    cbn [bind run answer result world_after calls]. rewrite Hemail.
    cbn [bind run answer result world_after calls]. rewrite Hprovider. reflexivity. }
  rewrite Hrun. cbn [result world_after calls profiles]. repeat split.
  intros i row Hrow Hid. exists (patch ∪ row). split.
  - rewrite (store_update_lookup patch id _ i row Hrow), Hid. reflexivity.
  - assert (Hpatch : exists v, body req !! "email" = Some v /\ patch !! "email" = Some v).
    { subst patch. destruct (body req !! "email") as [v |]; [| discriminate Hemail].
      exists v. split; [reflexivity |]. cbn [obj]. apply lookup_insert_eq. }
    destruct Hpatch as (v & Hv & Hpatch). rewrite Hv.
    apply lookup_union_Some_l. exact Hpatch.
Qed.

(** C9: for an admin's update whose body carries [username] and neither
    [email] nor [role], when the answer is 200 the only call made is the
    store update (none to the provider), no row is added or removed, every
    row keeps its [id], [email] and [role], every row of that id has the new
    [username], and every other row is unchanged. *)
Theorem update_username_only (w : World) (req : Request) (user : Session)
        (name : json) :
  is_string "admin" (claim_role (claims user)) = true ->
  body req !! "email" = None ->
  body req !! "role" = None ->
  body req !! "username" = Some name ->
  let id := params_id req in
  let o := run env (update_user req user) w in
  status (result o) = 200 ->
  result o = mkResponse 200 (JObj [("message", JStr "User updated successfully")])
  /\ calls o = [DbUpdate (<["username" := name]> ∅) id]
  /\ length (profiles (world_after o)) = length (profiles w)
  /\ (forall (i : nat) (row : object),
        profiles w !! i = Some row ->
        exists row', profiles (world_after o) !! i = Some row'
                     /\ row' !! "id" = row !! "id"
                     /\ row' !! "email" = row !! "email"
                     /\ row' !! "role" = row !! "role"
                     /\ (has_id (Some (JStr id)) row = true ->
                         row' !! "username" = Some name)
                     /\ (has_id (Some (JStr id)) row = false -> row' = row)).
Proof.
  intros Hadmin Hemail Hrole Hname id o Hsuccess.
  assert (Hrun : o = mkOutcome
                       (mkResponse 200 (JObj [("message", JStr "User updated successfully")]))
                       (mkWorld (store_update (<["username" := name]> ∅) id (profiles w))
                                (clock w))
                       [DbUpdate (<["username" := name]> ∅) id]).
  { subst o. revert Hsuccess. unfold update_user.
    rewrite Hadmin, Hemail, Hrole, Hname. fold id.
    unfold call. cbn [negb bind run answer obj truthy].
    destruct (store_fault env (DbUpdate (<["username" := name]> ∅) id)) as [failure |].
    - cbn. discriminate.
    - intros _. reflexivity. }
  rewrite Hrun. cbn [result world_after calls profiles]. repeat split.
  - unfold store_update. apply length_map.
  - intros i row Hrow.
    rewrite (store_update_lookup _ id _ i row Hrow).
    destruct (has_id (Some (JStr id)) row) eqn:Hid.
    + exists (<["username" := name]> ∅ ∪ row).
      split; [reflexivity |].
      repeat split.
      * apply lookup_union_r. rewrite lookup_insert_ne by discriminate. apply lookup_empty.
      * apply lookup_union_r. rewrite lookup_insert_ne by discriminate. apply lookup_empty.
      * apply lookup_union_r. rewrite lookup_insert_ne by discriminate. apply lookup_empty.
      * intros _. apply lookup_union_Some_l. apply lookup_insert_eq.
      * discriminate.
    + exists row. repeat split; try reflexivity. discriminate.
Qed.

(** C4 (as amended): on a protected route, a request whose Authorization
    header is missing or empty is answered 401 with [{message: "No token"}]
    and no call at all is made; a request whose header is not empty and
    whose credential fails verification is answered 401 with
    [{message: "Invalid token"}], the verification being the only call.  In
    neither case does the route's handler run. *)
Theorem gate_rejections (secret : option string) (r : Route)
        (h : Request -> Session -> Prog Response) (w : World) (req : Request) :
  protected_handler r = Some h ->
  (authorization req = None \/ authorization req = Some "" ->
   run env (serve secret r req) w = mkOutcome (message 401 "No token") w [])
  /\ (forall header : string,
        authorization req = Some header -> header <> "" ->
        jwt_verify (clock w) (bearer_credential header) (JWT_SECRET secret) = None ->
        run env (serve secret r req) w
        = mkOutcome (message 401 "Invalid token") w
                    [JwtVerify (bearer_credential header) (JWT_SECRET secret)]).
Proof.
  intros Hh. rewrite (serve_protected secret r h req Hh). unfold guarded, auth. split.
  - intros [Hnone | Hempty]; [rewrite Hnone | rewrite Hempty]; reflexivity.
  - intros header Hheader Hnonempty Hverify. rewrite Hheader.
    apply String.eqb_neq in Hnonempty. rewrite Hnonempty.
    unfold call. cbn [bind run answer]. rewrite Hverify. reflexivity.
Qed.

(** C5 (as amended): for a header that is not empty, the credential handed
    to verification is the second of the pieces into which the single space
    character cuts the header (an empty piece counts); so for a header
    [scheme ++ " " ++ t], or [scheme ++ " " ++ t ++ " " ++ rest], in which
    [scheme] and [t] hold no space, it is [t], whatever [scheme] is. *)
Theorem credential_is_second_piece (secret : option string) (w : World)
        (req : Request) (header : string) :
  authorization req = Some header ->
  header <> "" ->
  calls (run env (auth secret req) w)
    = [JwtVerify (nth_error (split_on " "%char header) 1) (JWT_SECRET secret)]
  /\ (forall scheme t : string,
        free_of " "%char scheme = true -> free_of " "%char t = true ->
        (header = scheme ++ " " ++ t
         \/ exists rest, header = scheme ++ " " ++ t ++ " " ++ rest) ->
        calls (run env (auth secret req) w)
          = [JwtVerify (Some t) (JWT_SECRET secret)]).
Proof.
  intros Hheader Hnonempty.
  assert (Hcalls : calls (run env (auth secret req) w)
                   = [JwtVerify (nth_error (split_on " "%char header) 1)
                                (JWT_SECRET secret)]).
  { unfold auth. rewrite Hheader. apply String.eqb_neq in Hnonempty.
    rewrite Hnonempty. unfold call, bearer_credential. cbn [bind run answer].
    destruct (jwt_verify _ _ _); reflexivity. }
  split; [exact Hcalls |].
  intros scheme t Hscheme Ht Hform. rewrite Hcalls. do 2 f_equal.
  destruct Hform as [-> | [rest ->]].
  - change (scheme ++ " " ++ t) with (scheme ++ String " "%char t).
    rewrite (split_on_first _ scheme t Hscheme), (split_on_free _ t Ht). reflexivity.
  - change (scheme ++ " " ++ t ++ " " ++ rest)
      with (scheme ++ String " "%char (t ++ String " "%char rest)).
    rewrite (split_on_first _ scheme _ Hscheme), (split_on_first _ t rest Ht).
    reflexivity.
Qed.

End Store_and_gate_claims.

(** ** The codec *)

Lemma jwt_verify_undefined `{TokenPrimitives} (now : Z) (secret : string) :
  jwt_verify now None secret = None.
Proof. reflexivity. Qed.

(** A credential that is not made of three segments is refused. *)
Lemma jwt_verify_malformed `{TokenPrimitives} (now : Z) (t secret : string) :
  length (split_on "."%char t) <> 3%nat -> jwt_verify now (Some t) secret = None.
Proof.
  intros Hparts. unfold jwt_verify.
  destruct (split_on "."%char t) as [| a [| b [| c [| d rest]]]]; try reflexivity.
  exfalso. apply Hparts. reflexivity.
Qed.

Lemma token_header_free_of_dot : free_of "."%char token_header = true.
Proof. reflexivity. Qed.

Lemma split_token (a b c : string) :
  free_of "."%char a = true -> free_of "."%char b = true -> free_of "."%char c = true ->
  split_on "."%char ((a ++ "." ++ b) ++ "." ++ c) = [a; b; c].
Proof. intros Ha Hb Hc. exact (split_on_three "."%char a b c Ha Hb Hc). Qed.

Section Codec_claims.

Context `{TokenLaws}.

(** C2: a token issued for the claims [c] with the service's secret and its
    expiry of seven days, verified with the same secret at the time of issue,
    is accepted and yields [c] (with the times the codec added: issued now,
    expiring seven days later); verified at any time from the expiry on, it
    is refused. *)
Theorem token_round_trip_and_expiry (secret : option string) (c : Claims) (now : Z) :
  let token := jwt_sign now c (JWT_SECRET secret) seven_days in
  jwt_verify now (Some token) (JWT_SECRET secret)
    = Some (mkSession c now (now + seven_days))
  /\ claims (mkSession c now (now + seven_days)) = c
  /\ (forall later : Z,
        now + seven_days <= later ->
        jwt_verify later (Some token) (JWT_SECRET secret) = None).
Proof.
  intros token.
  assert (Hverify : forall at_time : Z,
            jwt_verify at_time (Some token) (JWT_SECRET secret)
            = if now + seven_days <=? at_time then None
              else Some (mkSession c now (now + seven_days))).
  { intros at_time. subst token. unfold jwt_verify, jwt_sign.
    rewrite split_token
      by (apply token_header_free_of_dot || apply encode_session_free_of_dot
          || apply hmac_free_of_dot).
    rewrite String.eqb_refl, decode_encode_session. reflexivity. }
  repeat split.
  - rewrite Hverify.
    destruct (Z.leb_spec (now + seven_days) now) as [Hle |]; [| reflexivity].
    unfold seven_days in Hle. lia.
  - intros later Hlater. rewrite Hverify.
    destruct (Z.leb_spec (now + seven_days) later); [reflexivity | lia].
Qed.

End Codec_claims.

(** ** The plain primitives obey the laws *)

Lemma json_tree_inverse : forall j : json, tree_json (json_tree j) = j.
Proof.
  fix IH 1. intros [| [|] | n | s | items | fields]; simpl; try reflexivity.
  - f_equal. induction items as [| x rest IHrest]; simpl; [reflexivity |].
    rewrite IH, IHrest. reflexivity.
  - f_equal. induction fields as [| [k v] rest IHrest]; simpl; [reflexivity |].
    rewrite IH, IHrest. reflexivity.
Qed.

Lemma value_tree_inverse (v : value) : tree_value (value_tree v) = v.
Proof. destruct v as [j |]; simpl; [rewrite json_tree_inverse |]; reflexivity. Qed.

Lemma of_binary_binary (p : positive) : of_binary (binary p) = Some p.
Proof. induction p as [q IH | q IH |]; simpl; [rewrite IH .. |]; reflexivity. Qed.

Lemma binary_free_of_dot (p : positive) : free_of "."%char (binary p) = true.
Proof. induction p as [q IH | q IH |]; simpl; auto. Qed.

Lemma plain_laws : @TokenLaws plain_primitives.
Proof.
  split.
  - intros [[i e r] issued expires]. cbn [decode_session encode_session plain_primitives].
    unfold plain_decode, plain_encode. rewrite of_binary_binary.
    rewrite decode_encode. cbn [claims claim_id claim_email claim_role iat exp].
    rewrite !value_tree_inverse. reflexivity.
  - intros s. apply binary_free_of_dot.
  - intros key input. apply binary_free_of_dot.
Qed.

(** ** The claims on concrete requests *)

Lemma register_stores_role_user_witness :
  provider_createUser easy_env (body sample_registration !! "email")
                      (body sample_registration !! "password") = CreatedUser "u-1"
  /\ calls (run (H := plain_primitives) easy_env (register sample_registration) sample_world)
     = [AuthCreateUser (Some (JStr "b@x.com")) (Some (JStr "p"));
        DbInsert (obj [("id", Some (JStr "u-1")); ("email", Some (JStr "b@x.com"));
                       ("username", Some (JStr "b")); ("role", Some (JStr "user"))])].
Proof.
  split; [reflexivity |].
  exact (proj1 (register_stores_role_user (H := plain_primitives) easy_env sample_world
                  sample_registration "u-1" eq_refl)).
Defined.

Lemma register_ignores_insert_outcome_witness :
  store_fault failing_store_env (DbInsert ∅) <> None
  /\ result (run (H := plain_primitives) failing_store_env (register sample_registration)
                 sample_world)
     = mkResponse 200 (JObj [("message", JStr "User registered")]).
Proof.
  split; [discriminate |].
  apply (register_ignores_insert_outcome (H := plain_primitives) failing_store_env
           sample_world sample_registration "u-2").
  reflexivity.
Defined.

Lemma login_rejects_failed_sign_in_witness :
  run (H := plain_primitives) refusing_env (login None sample_login) sample_world
  = mkOutcome (message 401 "Invalid credentials") sample_world
              [AuthSignIn (Some (JStr "a@x.com")) (Some (JStr "wrong"))].
Proof.
  refine (proj1 (login_rejects_failed_sign_in (H := plain_primitives) refusing_env None
                   sample_world sample_login _)).
  left. discriminate.
Defined.

Lemma non_admin_is_refused_witness :
  result (run (H := plain_primitives) easy_env
              (serve None GetAdminAllUsers (bearer (sample_token "user") ∅)) sample_world)
  = message 403 "Not allowed".
Proof.
  refine (proj1 (non_admin_is_refused (H := plain_primitives) easy_env None
                   GetAdminAllUsers sample_world (bearer (sample_token "user") ∅)
                   (sample_session "user") _ _ _)).
  - reflexivity.
  - vm_compute. reflexivity.
  - reflexivity.
Defined.

Lemma create_user_checks_role_first_witness :
  create_user (bearer (sample_token "user") ∅) (sample_session "user")
  = Ret (message 403 "Not allowed")
  /\ is_string "admin" (claim_role (claims (sample_session "admin"))) = true.
Proof.
  split.
  - apply (proj1 (create_user_checks_role_first (H := plain_primitives) easy_env
                    sample_world (bearer (sample_token "user") ∅) (sample_session "user"))).
    reflexivity.
  - apply (proj2 (create_user_checks_role_first (H := plain_primitives) easy_env
                    sample_world (bearer (sample_token "admin") ∅)
                    (sample_session "admin"))).
    reflexivity.
Defined.

Lemma update_user_keeps_store_write_witness :
  let req := bearer (sample_token "admin") (obj [("email", Some (JStr "new@x.com"))]) in
  let o := run (H := plain_primitives) refusing_env
               (update_user req (sample_session "admin")) sample_world in
  result o = message 400 "Email address already in use"
  /\ profiles (world_after o)
     = store_update (obj [("email", Some (JStr "new@x.com"))]) "u-1" [sample_row].
Proof.
  intros req o.
  destruct (update_user_keeps_store_write (H := plain_primitives) refusing_env
              sample_world req (sample_session "admin") "Email address already in use"
              eq_refl eq_refl eq_refl eq_refl) as (Hresult & _ & Htable & _).
  split; [exact Hresult | exact Htable].
Defined.

Lemma update_username_only_witness :
  let req := bearer (sample_token "admin") (obj [("username", Some (JStr "b"))]) in
  let o := run (H := plain_primitives) easy_env
               (update_user req (sample_session "admin")) sample_world in
  status (result o) = 200
  /\ calls o = [DbUpdate (<["username" := JStr "b"]> ∅) "u-1"].
Proof.
  intros req o.
  assert (Hsuccess : status (result o) = 200) by reflexivity.
  split; [exact Hsuccess |].
  exact (proj1 (proj2 (update_username_only (H := plain_primitives) easy_env
                         sample_world req (sample_session "admin") (JStr "b")
                         eq_refl eq_refl eq_refl eq_refl Hsuccess))).
Defined.

Lemma gate_rejections_witness :
  run (H := plain_primitives) easy_env (serve None GetAuthMe (anonymous ∅)) sample_world
  = mkOutcome (message 401 "No token") sample_world []
  /\ result (run (H := plain_primitives) easy_env
                 (serve None GetAuthMe (bearer "garbage" ∅)) sample_world)
     = message 401 "Invalid token".
Proof.
  split.
  - apply (proj1 (gate_rejections (H := plain_primitives) easy_env None GetAuthMe me
                    sample_world (anonymous ∅) eq_refl)).
    left. reflexivity.
  - rewrite (proj2 (gate_rejections (H := plain_primitives) easy_env None GetAuthMe me
                      sample_world (bearer "garbage" ∅) eq_refl)
               "Bearer garbage" eq_refl).
    + reflexivity.
    + discriminate.
    + reflexivity.
Defined.

Lemma credential_is_second_piece_witness :
  calls (run (H := plain_primitives) easy_env
             (auth None (mkRequest (Some "Token abc def") ∅ "")) sample_world)
  = [JwtVerify (Some "abc") "YOUR_SECRET_KEY"].
Proof.
  refine (proj2 (credential_is_second_piece (H := plain_primitives) easy_env None
                   sample_world (mkRequest (Some "Token abc def") ∅ "") "Token abc def"
                   eq_refl _) "Token" "abc" eq_refl eq_refl _).
  - discriminate.
  - right. exists "def". reflexivity.
Defined.

Lemma token_round_trip_and_expiry_witness :
  jwt_verify (H := plain_primitives) 1000 (Some (sample_token "user")) "YOUR_SECRET_KEY"
  = Some (sample_session "user")
  /\ jwt_verify (H := plain_primitives) (1000 + seven_days) (Some (sample_token "user"))
                "YOUR_SECRET_KEY" = None.
Proof.
  destruct (token_round_trip_and_expiry (H := plain_primitives) (H0 := plain_laws)
              None (sample_claims "user") 1000) as (Hnow & _ & Hlater).
  split; [exact Hnow |].
  apply Hlater. lia.
Defined.

(** ** Where the code departs from the spec's words *)

(** C4 as stated fails for a header that is present and empty: its
    credential fails verification, yet the gate answers "No token". *)
Lemma empty_header_counterexample :
  ~ (forall (P : TokenPrimitives) (env : Env) (secret : option string) (w : World)
            (req : Request) (header : string),
       authorization req = Some header ->
       jwt_verify (clock w) (bearer_credential header) (JWT_SECRET secret) = None ->
       result (run env (auth secret req) w) = inl (message 401 "Invalid token")).
Proof.
  intros Hclaim.
  specialize (Hclaim plain_primitives easy_env None sample_world
                     (mkRequest (Some "") ∅ "") "" eq_refl eq_refl).
  discriminate Hclaim.
Qed.

(** C5 as stated fails for a header whose separator is a tab: the spec's
    second token is [abc], the gate hands [undefined] to verification. *)
Lemma tab_separator_counterexample :
  ~ (forall (P : TokenPrimitives) (env : Env) (secret : option string) (w : World)
            (req : Request) (scheme t : string) (sep : ascii),
       is_whitespace sep = true ->
       none_of is_whitespace scheme = true -> none_of is_whitespace t = true ->
       authorization req = Some (scheme ++ String sep t) ->
       calls (run env (auth secret req) w) = [JwtVerify (Some t) (JWT_SECRET secret)]).
Proof.
  intros Hclaim.
  specialize (Hclaim plain_primitives easy_env None sample_world
                     (mkRequest (Some ("Bearer" ++ String tab "abc")) ∅ "")
                     "Bearer" "abc" tab eq_refl eq_refl eq_refl eq_refl).
  discriminate Hclaim.
Qed.

(** On the same header the spec's reading and the code's differ. *)
Example tab_separated_header :
  spec_bearer_credential ("Bearer" ++ String tab "abc") = Some "abc"
  /\ bearer_credential ("Bearer" ++ String tab "abc") = None.
Proof. split; reflexivity. Qed.

(** Two spaces leave an empty second piece. *)
Example double_space_header : bearer_credential "Bearer  abc" = Some "".
Proof. reflexivity. Qed.

(** * Further properties of the handlers *)

(** ** Reading an object literal back *)

Lemma obj_lookup (props : list (string * value)) (k : string) (v : value) :
  NoDup (map fst props) -> (k, v) ∈ props -> obj props !! k = v.
Proof.
  induction props as [| [k' v'] rest IH]; intros Hnodup Hin.
  - apply elem_of_nil in Hin. destruct Hin.
  - cbn [map fst] in Hnodup. apply list.NoDup_cons in Hnodup as [Hfresh Hrest].
    apply elem_of_cons in Hin as [Heq | Hin].
    + injection Heq as <- <-. destruct v as [j |]; cbn [obj].
      * apply lookup_insert_eq.
      * clear IH Hrest. induction rest as [| [k2 [v2 |]] rest IH]; cbn [obj].
        -- apply lookup_empty.
        -- cbn [map fst] in Hfresh. apply not_elem_of_cons in Hfresh as [Hne Hfresh].
           rewrite lookup_insert_ne by congruence. apply IH. exact Hfresh.
        -- cbn [map fst] in Hfresh. apply not_elem_of_cons in Hfresh as [_ Hfresh].
           apply IH. exact Hfresh.
    + assert (Hne : k' <> k).
      { intros ->. apply Hfresh. apply list_elem_of_fmap. exists (k, v). split; [reflexivity | exact Hin]. }
      destruct v' as [j |]; cbn [obj].
      * rewrite lookup_insert_ne by exact Hne. apply IH; assumption.
      * apply IH; assumption.
Qed.

(** ** The store's select and update *)

Lemma store_single_unique (id : value) (rows : list object) (row : object) :
  rows_with_id id rows = [row] -> store_single id rows = mkSelected (Some row) None.
Proof. unfold store_single, rows_with_id. intros ->. reflexivity. Qed.

Lemma store_single_other (id : value) (rows : list object) :
  (forall row, rows_with_id id rows <> [row]) ->
  data (store_single id rows) = None /\ error (store_single id rows) <> None.
Proof.
  unfold store_single, rows_with_id. intros Hnot.
  destruct (filter _ rows) as [| a [| b rest]]; cbn; try (split; [reflexivity | discriminate]).
  exfalso. apply (Hnot a). reflexivity.
Qed.

Lemma store_single_data (id : value) (rows : list object) (row : object) :
  data (store_single id rows) = Some row -> rows_with_id id rows = [row].
Proof.
  unfold store_single, rows_with_id.
  destruct (filter _ rows) as [| a [| b rest]]; cbn; try discriminate.
  intros Heq. injection Heq as ->. reflexivity.
Qed.

Lemma rows_with_id_elem (id : value) (rows : list object) (row : object) :
  rows_with_id id rows = [row] -> row ∈ rows /\ has_id id row = true.
Proof.
  intros Hfilter.
  assert (Hin : row ∈ rows_with_id id rows) by (rewrite Hfilter; left).
  unfold rows_with_id in Hin. apply list_elem_of_filter in Hin as [Hid Hin].
  split; assumption.
Qed.

Lemma has_id_string (uid : string) (row : object) :
  has_id (Some (JStr uid)) row = true <-> row !! "id" = Some (JStr uid).
Proof.
  unfold has_id. split.
  - destruct (row !! "id") as [[| | | found | |] |]; try discriminate.
    intros Heq. apply String.eqb_eq in Heq. subst. reflexivity.
  - intros ->. apply String.eqb_refl.
Qed.

Lemma store_update_empty (id : string) (rows : list object) :
  store_update ∅ id rows = rows.
Proof.
  unfold store_update. induction rows as [| row rest IH]; [reflexivity |].
  cbn [map]. rewrite IH. destruct (has_id _ row); [| reflexivity].
  f_equal. apply (left_id_L ∅ (∪)).
Qed.

Lemma store_update_absent (patch : object) (id : string) (rows : list object) :
  Forall (fun row => has_id (Some (JStr id)) row = false) rows ->
  store_update patch id rows = rows.
Proof.
  unfold store_update. induction 1 as [| row rest Hrow _ IH]; [reflexivity |].
  cbn [map]. rewrite Hrow, IH. reflexivity.
Qed.

Section Handler_paths.

Context `{TokenPrimitives}.
Variable env : Env.

(** X1: when the provider refuses the account, [register] answers 400 with
    the provider's message; the create-user call is the only call, so nothing
    is written to the table. *)
Theorem register_provider_refusal (w : World) (req : Request) (msg : string) :
  provider_createUser env (body req !! "email") (body req !! "password")
    = CreateFailed msg ->
  run env (register req) w
  = mkOutcome (message 400 msg) w
              [AuthCreateUser (body req !! "email") (body req !! "password")].
Proof.
  intros Hrefused. unfold register, call. cbn [bind run answer].
  rewrite Hrefused. reflexivity.
Qed.

(** X2: when the sign-in succeeds but the store fails, or the table does not
    hold exactly one row with the signed-in id, [login] answers 500 with
    [{message: "Profile not found"}]; no token is issued and the table is
    unchanged. *)
Theorem login_without_profile (secret : option string) (w : World) (req : Request)
        (uid : string) :
  provider_signIn env (body req !! "email") (body req !! "password")
    = mkSignedIn None (Some uid) ->
  store_fault env (DbSelectSingle (Some (JStr uid))) <> None
  \/ (forall row, rows_with_id (Some (JStr uid)) (profiles w) <> [row]) ->
  run env (login secret req) w
  = mkOutcome (message 500 "Profile not found") w
              [AuthSignIn (body req !! "email") (body req !! "password");
               DbSelectSingle (Some (JStr uid))].
Proof.
  intros Hsignin Hmissing. unfold login, call. cbn [bind run answer].
  rewrite Hsignin. cbn [signin_error signin_user bind run answer].
  destruct (store_fault env (DbSelectSingle (Some (JStr uid)))) as [failure |] eqn:Hfault.
  - reflexivity.
  - destruct Hmissing as [Hfail | Hrows]; [congruence |].
    destruct (store_single_other _ _ Hrows) as [Hdata Herror].
    cbn [bind run]. rewrite Hdata.
    destruct (error (store_single (Some (JStr uid)) (profiles w))); reflexivity.
Qed.

(** X3: when the sign-in succeeds and the table holds exactly one row with
    the signed-in id, [login] signs the [id], [email] and [role] of that row
    (not the provider's data) with the service's secret for seven days, and
    answers 200 with the token and the row's four columns; the row's [id] is
    the signed-in id and the table is unchanged. *)
Theorem login_signs_profile (secret : option string) (w : World) (req : Request)
        (uid : string) (profile : object) :
  provider_signIn env (body req !! "email") (body req !! "password")
    = mkSignedIn None (Some uid) ->
  store_fault env (DbSelectSingle (Some (JStr uid))) = None ->
  rows_with_id (Some (JStr uid)) (profiles w) = [profile] ->
  let c := mkClaims (profile !! "id") (profile !! "email") (profile !! "role") in
  run env (login secret req) w
  = mkOutcome
      (mkResponse 200
         (JObj [("token", JStr (jwt_sign (clock w) c (JWT_SECRET secret) seven_days));
                ("user", JObj (body_of [("id", profile !! "id");
                                        ("email", profile !! "email");
                                        ("username", profile !! "username");
                                        ("role", profile !! "role")]))]))
      w
      [AuthSignIn (body req !! "email") (body req !! "password");
       DbSelectSingle (Some (JStr uid));
       JwtSign c (JWT_SECRET secret) seven_days]
  /\ profile !! "id" = Some (JStr uid).
Proof.
  intros Hsignin Hstore Hrows c. split.
  - unfold login, call. cbn [bind run answer].
    rewrite Hsignin. cbn [signin_error signin_user bind run answer].
    rewrite Hstore, (store_single_unique _ _ _ Hrows). reflexivity.
  - apply has_id_string. apply (rows_with_id_elem _ _ _ Hrows).
Qed.

(** X4: [me] makes one call, the select by the session's id, and leaves the
    table unchanged; an answer 200 carries a row of the table whose [id] is
    the session's id, and any other answer is 500 with
    [{message: "Profile not found"}]. *)
Theorem me_returns_own_row (w : World) (req : Request) (user : Session) :
  let o := run env (me req user) w in
  calls o = [DbSelectSingle (claim_id (claims user))]
  /\ world_after o = w
  /\ (status (result o) = 200 ->
      exists row, result o = mkResponse 200 (JObj [("user", row_json row)])
                  /\ row ∈ profiles w
                  /\ has_id (claim_id (claims user)) row = true)
  /\ (status (result o) <> 200 -> result o = message 500 "Profile not found").
Proof.
  intros o. subst o. unfold me, call. cbn [bind run answer].
  destruct (store_fault env (DbSelectSingle (claim_id (claims user)))) as [failure |].
  - cbn. repeat split; try discriminate; try (intros _; reflexivity).
  - cbn [bind run].
    destruct (store_single (claim_id (claims user)) (profiles w)) as [found failure] eqn:Hsel.
    destruct failure as [msg |]; [| destruct found as [row |]]; cbn;
      repeat split; try discriminate; try (intros _; reflexivity); try congruence.
    intros _. exists row. split; [reflexivity |].
    apply rows_with_id_elem. apply store_single_data. rewrite Hsel. reflexivity.
Qed.

(** X5: for an admin, [all_users] makes one call, the select of all rows,
    and leaves the table unchanged; when the store does not fail it answers
    200 with every row of the table, in the table's order, and otherwise 500
    with [{message: "Error fetching users"}]. *)
Theorem all_users_lists_table (w : World) (req : Request) (user : Session) :
  is_string "admin" (claim_role (claims user)) = true ->
  let o := run env (all_users req user) w in
  calls o = [DbSelectAll]
  /\ world_after o = w
  /\ (store_fault env DbSelectAll = None ->
      result o = mkResponse 200 (JArr (map row_json (profiles w))))
  /\ (store_fault env DbSelectAll <> None ->
      result o = message 500 "Error fetching users").
Proof.
  intros Hadmin o. subst o. unfold all_users, call. rewrite Hadmin.
  cbn [negb bind run answer].
  destruct (store_fault env DbSelectAll) as [failure |]; cbn;
    repeat split; try discriminate; try congruence; intros _; reflexivity.
Qed.

(** X6: for an admin, a create-user request in which [email], [password],
    [username] or [role] is missing or falsy is answered 400 with
    [{message: "All fields required"}] and no call is made. *)
Theorem create_user_requires_fields (w : World) (req : Request) (user : Session) :
  is_string "admin" (claim_role (claims user)) = true ->
  truthy (body req !! "email") = false \/ truthy (body req !! "password") = false
  \/ truthy (body req !! "username") = false \/ truthy (body req !! "role") = false ->
  run env (create_user req user) w
  = mkOutcome (message 400 "All fields required") w [].
Proof.
  intros Hadmin Hfalsy. unfold create_user. rewrite Hadmin. cbn [negb].
  assert (Hcheck : negb (truthy (body req !! "email"))
                   || negb (truthy (body req !! "password"))
                   || negb (truthy (body req !! "username"))
                   || negb (truthy (body req !! "role")) = true).
  { destruct Hfalsy as [-> | [-> | [-> | ->]]]; cbn [negb];
      rewrite ?orb_true_r; reflexivity. }
  rewrite Hcheck. reflexivity.
Qed.

End Handler_paths.

(** ** Creating and updating users *)

Lemma all_fields_given (email password username role : value) :
  truthy email = true -> truthy password = true ->
  truthy username = true -> truthy role = true ->
  negb (truthy email) || negb (truthy password)
  || negb (truthy username) || negb (truthy role) = false.
Proof. intros -> -> -> ->. reflexivity. Qed.

Lemma truthy_defined (v : value) : truthy v = true -> exists j, v = Some j.
Proof. destruct v as [j |]; [eauto | discriminate]. Qed.

Section Admin_paths.

Context `{TokenPrimitives}.
Variable env : Env.

(** X7: for an admin's complete create-user request, when the provider
    refuses the account the answer is 400 with the provider's message and the
    store is not called. *)
Theorem create_user_provider_refusal (w : World) (req : Request) (user : Session)
        (msg : string) :
  is_string "admin" (claim_role (claims user)) = true ->
  truthy (body req !! "email") = true -> truthy (body req !! "password") = true ->
  truthy (body req !! "username") = true -> truthy (body req !! "role") = true ->
  provider_createUser env (body req !! "email") (body req !! "password")
    = CreateFailed msg ->
  run env (create_user req user) w
  = mkOutcome (message 400 msg) w
              [AuthCreateUser (body req !! "email") (body req !! "password")].
Proof.
  intros Hadmin He Hp Hu Hr Hrefused. unfold create_user, call.
  rewrite Hadmin, (all_fields_given _ _ _ _ He Hp Hu Hr).
  cbn [negb bind run answer]. rewrite Hrefused. reflexivity.
Qed.

(** X8: for an admin's complete create-user request, when the provider
    creates the account and the store then refuses the insert, the answer is
    500 with [{message: "Profile insert failed"}] and the table is unchanged:
    the provider's account stays without a profile. *)
Theorem create_user_insert_failure (w : World) (req : Request) (user : Session)
        (uid failure : string) :
  is_string "admin" (claim_role (claims user)) = true ->
  truthy (body req !! "email") = true -> truthy (body req !! "password") = true ->
  truthy (body req !! "username") = true -> truthy (body req !! "role") = true ->
  provider_createUser env (body req !! "email") (body req !! "password")
    = CreatedUser uid ->
  let row := obj [("id", Some (JStr uid)); ("email", body req !! "email");
                  ("username", body req !! "username"); ("role", body req !! "role")] in
  store_fault env (DbInsert row) = Some failure ->
  run env (create_user req user) w
  = mkOutcome (message 500 "Profile insert failed") w
              [AuthCreateUser (body req !! "email") (body req !! "password");
               DbInsert row].
Proof.
  intros Hadmin He Hp Hu Hr Hcreated row Hfault. unfold create_user, call.
  rewrite Hadmin, (all_fields_given _ _ _ _ He Hp Hu Hr).
  cbn [negb bind run answer]. rewrite Hcreated. cbn [bind run answer].
  fold row. rewrite Hfault. reflexivity.
Qed.

(** X9: for an admin's complete create-user request that the provider and
    the store accept, the answer is 200 with
    [{message: "User created successfully"}] and the table gains, at its end,
    one row: its [id] is the provider's, its [email], [username] and [role]
    are the ones of the request, so the admin chooses the role. *)
Theorem create_user_appends_row (w : World) (req : Request) (user : Session)
        (uid : string) :
  is_string "admin" (claim_role (claims user)) = true ->
  truthy (body req !! "email") = true -> truthy (body req !! "password") = true ->
  truthy (body req !! "username") = true -> truthy (body req !! "role") = true ->
  provider_createUser env (body req !! "email") (body req !! "password")
    = CreatedUser uid ->
  let row := obj [("id", Some (JStr uid)); ("email", body req !! "email");
                  ("username", body req !! "username"); ("role", body req !! "role")] in
  store_fault env (DbInsert row) = None ->
  run env (create_user req user) w
  = mkOutcome (mkResponse 200 (JObj [("message", JStr "User created successfully")]))
              (mkWorld (profiles w ++ [row]) (clock w))
              [AuthCreateUser (body req !! "email") (body req !! "password");
               DbInsert row]
  /\ row !! "id" = Some (JStr uid)
  /\ row !! "email" = body req !! "email"
  /\ row !! "username" = body req !! "username"
  /\ row !! "role" = body req !! "role".
Proof.
  intros Hadmin He Hp Hu Hr Hcreated row Hstore. split.
  - unfold create_user, call.
    rewrite Hadmin, (all_fields_given _ _ _ _ He Hp Hu Hr).
    cbn [negb bind run answer]. rewrite Hcreated. cbn [bind run answer].
    fold row. rewrite Hstore. reflexivity.
  - assert (Hkeys : NoDup (map fst [("id", Some (JStr uid)); ("email", body req !! "email");
                                    ("username", body req !! "username");
                                    ("role", body req !! "role")])).
    { apply (bool_decide_unpack _). vm_compute. exact I. }
    subst row. repeat split; apply (obj_lookup _ _ _ Hkeys); repeat constructor.
Qed.

(** X10: for an admin's update, when the store refuses the update the answer
    is 400 with the store's message, the provider is not called (even for a
    truthy [email]) and the table is unchanged. *)
Theorem update_user_store_failure (w : World) (req : Request) (user : Session)
        (failure : string) :
  is_string "admin" (claim_role (claims user)) = true ->
  let patch := obj [("email", body req !! "email");
                    ("username", body req !! "username");
                    ("role", body req !! "role")] in
  store_fault env (DbUpdate patch (params_id req)) = Some failure ->
  run env (update_user req user) w
  = mkOutcome (message 400 failure) w [DbUpdate patch (params_id req)].
Proof.
  intros Hadmin patch Hfault. unfold update_user, call. rewrite Hadmin.
  cbn [negb bind run answer]. fold patch. rewrite Hfault. reflexivity.
Qed.

(** X11: for an admin's update of an id that no row of the table has, when
    the store and (for a truthy [email]) the provider report no error, the
    answer is 200 with [{message: "User updated successfully"}] although the
    table is unchanged. *)
Theorem update_user_unknown_id (w : World) (req : Request) (user : Session) :
  is_string "admin" (claim_role (claims user)) = true ->
  Forall (fun row => has_id (Some (JStr (params_id req))) row = false) (profiles w) ->
  let patch := obj [("email", body req !! "email");
                    ("username", body req !! "username");
                    ("role", body req !! "role")] in
  store_fault env (DbUpdate patch (params_id req)) = None ->
  truthy (body req !! "email") = false
  \/ provider_updateUserById env (params_id req) (body req !! "email") = None ->
  let o := run env (update_user req user) w in
  result o = mkResponse 200 (JObj [("message", JStr "User updated successfully")])
  /\ world_after o = w.
Proof.
  intros Hadmin Habsent patch Hstore Hprovider o. subst o.
  unfold update_user, call. rewrite Hadmin.
  cbn [negb bind run answer]. fold patch. rewrite Hstore.
  rewrite (store_update_absent patch _ _ Habsent).
  destruct w as [rows now]. cbn [profiles clock bind run answer].
  destruct (truthy (body req !! "email")) eqn:Hemail.
  - destruct Hprovider as [Hfalse | Hnone]; [discriminate |].
    cbn [bind run answer]. rewrite Hnone. split; reflexivity.
  - split; reflexivity.
Qed.

(** X12: for an admin's update whose body carries none of [email],
    [username] and [role], when the store reports no error the answer is 200
    with [{message: "User updated successfully"}], the update with an empty
    patch is the only call and the table is unchanged: nothing requires a
    field to be present. *)
Theorem update_user_empty_body (w : World) (req : Request) (user : Session) :
  is_string "admin" (claim_role (claims user)) = true ->
  body req !! "email" = None -> body req !! "username" = None ->
  body req !! "role" = None ->
  store_fault env (DbUpdate ∅ (params_id req)) = None ->
  run env (update_user req user) w
  = mkOutcome (mkResponse 200 (JObj [("message", JStr "User updated successfully")]))
              w [DbUpdate ∅ (params_id req)].
Proof.
  intros Hadmin He Hu Hr Hstore. unfold update_user, call.
  rewrite Hadmin, He, Hu, Hr. cbn [negb obj bind run answer truthy].
  rewrite Hstore, store_update_empty. destruct w; reflexivity.
Qed.

(** X13: for an admin's update whose [email] is present but falsy (the empty
    string, [null], [0], [false]), when the store reports no error the answer
    is 200, every row of that id has its [email] column set to that value,
    and the provider is not called: the login e-mail is left as it was. *)
Theorem update_user_falsy_email (w : World) (req : Request) (user : Session)
        (email : json) :
  is_string "admin" (claim_role (claims user)) = true ->
  body req !! "email" = Some email ->
  truthy (Some email) = false ->
  let patch := obj [("email", Some email); ("username", body req !! "username");
                    ("role", body req !! "role")] in
  store_fault env (DbUpdate patch (params_id req)) = None ->
  let o := run env (update_user req user) w in
  result o = mkResponse 200 (JObj [("message", JStr "User updated successfully")])
  /\ calls o = [DbUpdate patch (params_id req)]
  /\ (forall (i : nat) (row : object),
        profiles w !! i = Some row ->
        has_id (Some (JStr (params_id req))) row = true ->
        exists row', profiles (world_after o) !! i = Some row'
                     /\ row' !! "email" = Some email).
Proof.
  intros Hadmin He Hfalsy patch Hstore o.
  assert (Hrun : o = mkOutcome
                       (mkResponse 200 (JObj [("message", JStr "User updated successfully")]))
                       (mkWorld (store_update patch (params_id req) (profiles w)) (clock w))
                       [DbUpdate patch (params_id req)]).
  { subst o. unfold update_user, call. rewrite Hadmin, He.
    cbn [negb bind run answer]. fold patch. rewrite Hstore.
    cbn [bind run answer]. rewrite Hfalsy. reflexivity. }
  rewrite Hrun. cbn [result calls world_after profiles]. repeat split.
  intros i row Hrow Hid. exists (patch ∪ row). split.
  - rewrite (store_update_lookup patch _ _ i row Hrow), Hid. reflexivity.
  - apply lookup_union_Some_l. subst patch. cbn [obj]. apply lookup_insert_eq.
Qed.

End Admin_paths.

(** ** Repeating an update *)

Lemma has_id_union (patch row : object) (id : value) :
  patch !! "id" = None -> has_id id (patch ∪ row) = has_id id row.
Proof.
  intros Hpatch. unfold has_id. rewrite (lookup_union_r patch row "id" Hpatch).
  reflexivity.
Qed.

Lemma store_update_again (email username role : value) (id : string)
      (rows : list object) :
  let patch := obj [("email", email); ("username", username); ("role", role)] in
  map (fun row => row !! "id") (store_update patch id rows)
  = map (fun row => row !! "id") rows
  /\ store_update patch id (store_update patch id rows) = store_update patch id rows.
Proof.
  intros patch.
  assert (Hpatch : patch !! "id" = None).
  { subst patch. destruct email, username, role; cbn [obj];
      rewrite ?lookup_insert_ne by discriminate; apply lookup_empty. }
  unfold store_update. split.
  - induction rows as [| row rest IH]; [reflexivity |].
    cbn [map]. rewrite IH. f_equal.
    destruct (has_id _ row); [apply lookup_union_r; exact Hpatch | reflexivity].
  - induction rows as [| row rest IH]; [reflexivity |].
    cbn [map]. rewrite IH. f_equal.
    destruct (has_id (Some (JStr id)) row) eqn:Hid.
    + rewrite (has_id_union patch row _ Hpatch), Hid.
      rewrite (assoc_L (∪)), (idemp_L (∪) patch). reflexivity.
    + rewrite Hid. reflexivity.
Qed.

Section Update_twice.

Context `{TokenPrimitives}.
Variable env : Env.

Lemma update_user_world (w : World) (req : Request) (user : Session) :
  is_string "admin" (claim_role (claims user)) = true ->
  let patch := obj [("email", body req !! "email");
                    ("username", body req !! "username");
                    ("role", body req !! "role")] in
  store_fault env (DbUpdate patch (params_id req)) = None ->
  world_after (run env (update_user req user) w)
  = mkWorld (store_update patch (params_id req) (profiles w)) (clock w).
Proof.
  intros Hadmin patch Hstore. unfold update_user, call. rewrite Hadmin.
  cbn [negb bind run answer]. fold patch. rewrite Hstore.
  cbn [bind run answer world_after].
  destruct (truthy (body req !! "email")); [| reflexivity].
  cbn [bind run answer world_after].
  destruct (provider_updateUserById env _ _); reflexivity.
Qed.

(** X14: an admin's update that the store accepts keeps the [id] of every
    row (the patch it builds never holds the column [id]) and the number of
    rows, and the same request served a second time leaves the table as the
    first left it. *)
Theorem update_user_twice (w : World) (req : Request) (user : Session) :
  is_string "admin" (claim_role (claims user)) = true ->
  let patch := obj [("email", body req !! "email");
                    ("username", body req !! "username");
                    ("role", body req !! "role")] in
  store_fault env (DbUpdate patch (params_id req)) = None ->
  let w1 := world_after (run env (update_user req user) w) in
  map (fun row => row !! "id") (profiles w1) = map (fun row => row !! "id") (profiles w)
  /\ length (profiles w1) = length (profiles w)
  /\ world_after (run env (update_user req user) w1) = w1.
Proof.
  intros Hadmin patch Hstore w1.
  assert (Hw1 : w1 = mkWorld (store_update patch (params_id req) (profiles w)) (clock w))
    by (apply update_user_world; assumption).
  destruct (store_update_again (body req !! "email") (body req !! "username")
              (body req !! "role") (params_id req) (profiles w)) as [Hids Htwice].
  fold patch in Hids, Htwice. repeat split.
  - rewrite Hw1. exact Hids.
  - rewrite Hw1. unfold store_update. apply length_map.
  - rewrite (update_user_world w1 req user Hadmin Hstore). fold patch.
    rewrite Hw1. cbn [profiles clock]. rewrite Htwice. reflexivity.
Qed.

End Update_twice.

(** ** The pieces of a header *)

Lemma free_of_append (c : ascii) (a b : string) :
  free_of c (a ++ b) = free_of c a && free_of c b.
Proof.
  induction a as [| x a' IH]; [reflexivity |].
  change (free_of c (String x (a' ++ b)) = free_of c (String x a') && free_of c b).
  cbn [free_of]. rewrite IH. apply andb_assoc.
Qed.

Lemma split_on_pieces_free (sep : ascii) (s : string) :
  Forall (fun piece => free_of sep piece = true) (split_on sep s).
Proof.
  induction s as [| c rest IH]; cbn [split_on].
  - repeat constructor.
  - destruct (Ascii.eqb c sep) eqn:Hc.
    + constructor; [reflexivity | exact IH].
    + destruct (split_on sep rest) as [| piece pieces].
      * repeat constructor. cbn [free_of]. rewrite Hc. reflexivity.
      * inversion IH as [| ? ? Hpiece Hpieces]; subst. constructor; [| exact Hpieces].
        cbn [free_of]. rewrite Hc, Hpiece. reflexivity.
Qed.

Lemma split_on_cons (sep : ascii) (s : string) :
  exists piece pieces, split_on sep s = piece :: pieces.
Proof.
  destruct s as [| c rest]; cbn [split_on]; [eauto |].
  destruct (Ascii.eqb c sep); [eauto |].
  destruct (split_on sep rest); eauto.
Qed.

Lemma split_on_second (sep : ascii) (s : string) :
  nth_error (split_on sep s) 1 = None <-> free_of sep s = true.
Proof.
  induction s as [| c rest IH]; cbn [split_on free_of].
  - split; reflexivity.
  - destruct (split_on_cons sep rest) as (piece & pieces & Hsplit).
    rewrite Hsplit in *.
    destruct (Ascii.eqb c sep); cbn [negb andb].
    + split; discriminate.
    + exact IH.
Qed.

(** X15: the credential [header.split(" ")[1]] is [undefined] exactly when
    the header holds no space, and a credential that is defined holds no
    space. *)
Theorem credential_defined_iff_space (header : string) :
  (bearer_credential header = None <-> free_of " "%char header = true)
  /\ (forall t, bearer_credential header = Some t -> free_of " "%char t = true).
Proof.
  unfold bearer_credential. split; [apply split_on_second |].
  intros t Ht.
  pose proof (split_on_pieces_free " "%char header) as Hfree.
  rewrite Forall_forall in Hfree. apply Hfree.
  apply (nth_error_In _ 1). exact Ht.
Qed.

Section Gate_paths.

Context `{TokenPrimitives}.
Variable env : Env.

(** X16: on a protected route, a header that is not empty and holds no space
    (a token sent without a scheme in front) is answered 401 with
    [{message: "Invalid token"}], whatever the token is: verification is
    called with [undefined]. *)
Theorem header_without_space_is_refused (secret : option string) (r : Route)
        (h : Request -> Session -> Prog Response) (w : World) (req : Request)
        (header : string) :
  protected_handler r = Some h ->
  authorization req = Some header ->
  header <> "" ->
  free_of " "%char header = true ->
  run env (serve secret r req) w
  = mkOutcome (message 401 "Invalid token") w [JwtVerify None (JWT_SECRET secret)].
Proof.
  intros Hh Hheader Hnonempty Hfree.
  rewrite (serve_protected secret r h req Hh). unfold guarded, auth.
  rewrite Hheader. apply String.eqb_neq in Hnonempty. rewrite Hnonempty.
  apply split_on_second in Hfree. unfold bearer_credential. rewrite Hfree.
  reflexivity.
Qed.

(** X17: on a protected route, when the gate lets a request pass, the header
    is present, its credential verified to the session the handler receives,
    and the route's answer and final state are the handler's, after the one
    verification call; the gate itself tests no role. *)
Theorem gate_hands_session_to_handler (secret : option string) (r : Route)
        (h : Request -> Session -> Prog Response) (w : World) (req : Request)
        (user : Session) :
  protected_handler r = Some h ->
  result (run env (auth secret req) w) = inr user ->
  exists header,
    authorization req = Some header
    /\ jwt_verify (clock w) (bearer_credential header) (JWT_SECRET secret) = Some user
    /\ run env (serve secret r req) w
       = mkOutcome (result (run env (h req user) w))
                   (world_after (run env (h req user) w))
                   (JwtVerify (bearer_credential header) (JWT_SECRET secret)
                    :: calls (run env (h req user) w)).
Proof.
  intros Hh Hgate. rewrite (serve_protected secret r h req Hh).
  unfold guarded. revert Hgate. unfold auth.
  destruct (authorization req) as [header |]; [| discriminate].
  destruct (String.eqb header ""); [discriminate |].
  unfold call. cbn [bind run answer].
  destruct (jwt_verify (clock w) (bearer_credential header) (JWT_SECRET secret))
    as [session |] eqn:Hverify; cbn [bind run result]; [| discriminate].
  intros Heq. injection Heq as ->.
  exists header. repeat split. exact Hverify.
Qed.

End Gate_paths.

(** ** The secret and the cross-origin check *)

(** X18: the signing secret is never the empty string: it is the
    environment's [JWT_SECRET] when that is set and not empty, and the
    literal ["YOUR_SECRET_KEY"] otherwise. *)
Theorem secret_is_never_empty (configured : option string) :
  JWT_SECRET configured <> ""
  /\ (forall s, configured = Some s -> s <> "" -> JWT_SECRET configured = s)
  /\ (configured = None \/ configured = Some "" ->
      JWT_SECRET configured = "YOUR_SECRET_KEY").
Proof.
  unfold JWT_SECRET. repeat split.
  - destruct configured as [s |]; [| discriminate].
    destruct (String.eqb s "") eqn:Hs; [discriminate |].
    apply String.eqb_neq. exact Hs.
  - intros s -> Hs. apply String.eqb_neq in Hs. rewrite Hs. reflexivity.
  - intros [-> | ->]; reflexivity.
Qed.

(** X19: the cross-origin check accepts a request exactly when it has no
    Origin header, an empty one, or one that is, character for character,
    one of the two allowed origins. *)
Theorem cors_accepts_listed_origins (origin : option string) :
  cors_origin origin = true
  <-> origin = None \/ origin = Some ""
      \/ origin = Some "http://localhost:5173"
      \/ origin = Some "https://kajaclarium.github.io".
Proof.
  unfold cors_origin, allowedOrigins. destruct origin as [o |].
  - destruct (String.eqb o "") eqn:Hempty.
    + apply String.eqb_eq in Hempty. subst. split; auto.
    + cbn [existsb]. rewrite orb_false_r, orb_true_iff, !String.eqb_eq.
      apply String.eqb_neq in Hempty. split.
      * intros [-> | ->]; auto.
      * intros [Hnone | [Hnil | [Ha | Hb]]]; try discriminate; try congruence.
        -- left. congruence.
        -- right. congruence.
  - split; auto.
Qed.

(** ** Every route, every request *)

Ltac run_step :=
  cbn [bind run answer result world_after calls status payload negb
       signin_error signin_user data error message ok].

Ltac listed := solve [repeat constructor].

Ltac sublisted :=
  let x := fresh "x" in
  let Hx := fresh "Hx" in
  intros x Hx;
  repeat (apply elem_of_cons in Hx as [-> | Hx]; [listed |]);
  apply elem_of_nil in Hx; destruct Hx.

Ltac run_cases :=
  unfold call;
  repeat (run_step;
          match goal with
          | |- context [match ?x with _ => _ end] =>
              lazymatch x with
              | context [match _ with _ => _ end] => fail
              | _ => destruct x eqn:?
              end
          end);
  run_step.

Section All_routes.

Context `{TokenPrimitives}.
Variable env : Env.

Lemma gate_answer (secret : option string) (req : Request) (w : World)
      (rejected : Response) :
  result (run env (auth secret req) w) = inl rejected ->
  status rejected = 401 /\ exists text, payload rejected = JObj [("message", JStr text)].
Proof.
  unfold auth. run_cases; intros Heq; try discriminate Heq;
    injection Heq as <-; (split; [reflexivity | eexists; reflexivity]).
Qed.

Lemma register_answer (req : Request) (w : World) :
  well_formed [200; 400] (result (run env (register req) w)).
Proof.
  unfold well_formed, register. run_cases;
    (split; [set_solver | intros; try congruence; eexists; reflexivity]).
Qed.

Lemma login_answer (secret : option string) (req : Request) (w : World) :
  well_formed [200; 401; 500] (result (run env (login secret req) w)).
Proof.
  unfold well_formed, login. run_cases;
    (split; [set_solver | intros; try congruence; eexists; reflexivity]).
Qed.

Lemma me_answer (req : Request) (user : Session) (w : World) :
  well_formed [200; 500] (result (run env (me req user) w)).
Proof.
  unfold well_formed, me. run_cases;
    (split; [set_solver | intros; try congruence; eexists; reflexivity]).
Qed.

Lemma all_users_answer (req : Request) (user : Session) (w : World) :
  well_formed [200; 403; 500] (result (run env (all_users req user) w)).
Proof.
  unfold well_formed, all_users. run_cases;
    (split; [set_solver | intros; try congruence; eexists; reflexivity]).
Qed.

Lemma create_user_answer (req : Request) (user : Session) (w : World) :
  well_formed [200; 400; 403; 500] (result (run env (create_user req user) w)).
Proof.
  unfold well_formed, create_user. run_cases;
    (split; [set_solver | intros; try congruence; eexists; reflexivity]).
Qed.

Lemma update_user_answer (req : Request) (user : Session) (w : World) :
  well_formed [200; 400; 403] (result (run env (update_user req user) w)).
Proof.
  unfold well_formed, update_user. run_cases;
    (split; [set_solver | intros; try congruence; eexists; reflexivity]).
Qed.

End All_routes.

Section Route_composition.

Context `{TokenPrimitives}.
Variable env : Env.

Lemma guarded_run (secret : option string) (h : Request -> Session -> Prog Response)
      (req : Request) (w : World) :
  run env (guarded secret h req) w
  = match result (run env (auth secret req) w) with
    | inl rejected => mkOutcome rejected w (calls (run env (auth secret req) w))
    | inr user =>
        mkOutcome (result (run env (h req user) w))
                  (world_after (run env (h req user) w))
                  (calls (run env (auth secret req) w) ++ calls (run env (h req user) w))
    end.
Proof.
  unfold guarded. rewrite run_bind. cbv zeta.
  destruct (auth_touches_nothing env secret req w) as [Hw _]. rewrite Hw.
  destruct (result (run env (auth secret req) w)); [| reflexivity].
  cbn [run result world_after calls]. rewrite app_nil_r. reflexivity.
Qed.

Lemma well_formed_more (small large : list Z) (answer : Response) :
  small ⊆ large -> well_formed small answer -> well_formed large answer.
Proof. intros Hsub [Hin Hmessage]. split; [apply Hsub; exact Hin | exact Hmessage]. Qed.

Lemma guarded_answer (secret : option string) (h : Request -> Session -> Prog Response)
      (statuses all : list Z) (req : Request) (w : World) :
  (forall user, well_formed statuses (result (run env (h req user) w))) ->
  statuses ⊆ all -> 401 ∈ all ->
  well_formed all (result (run env (guarded secret h req) w)).
Proof.
  intros Hhandler Hsub Hgate. rewrite guarded_run.
  destruct (result (run env (auth secret req) w)) as [rejected | user] eqn:Hauth.
  - destruct (gate_answer env secret req w rejected Hauth) as [Hstatus Hmessage].
    split; cbn [result]; [rewrite Hstatus; exact Hgate | intros _; exact Hmessage].
  - cbn [result]. apply (well_formed_more statuses); [exact Hsub | apply Hhandler].
Qed.

(** X20: every route answers every request, whatever the provider and the
    store do, with one of its own status codes (register 200 or 400; login
    and [/auth/me] 200, 401 or 500; all-users 200, 401, 403 or 500;
    create-user 200, 400, 401, 403 or 500; update-user 200, 400, 401 or 403),
    and an answer that is not 200 is an object with the single property
    [message], a string. *)
Theorem every_answer_is_well_formed (secret : option string) (r : Route)
        (req : Request) (w : World) :
  well_formed (route_statuses r) (result (run env (serve secret r req) w)).
Proof.
  destruct r; cbn [serve route_statuses].
  - apply register_answer.
  - apply login_answer.
  - apply (guarded_answer secret me [200; 500]);
      [intros user; apply me_answer | sublisted | listed].
  - apply (guarded_answer secret all_users [200; 403; 500]);
      [intros user; apply all_users_answer | sublisted | listed].
  - apply (guarded_answer secret create_user [200; 400; 403; 500]);
      [intros user; apply create_user_answer | sublisted | listed].
  - apply (guarded_answer secret update_user [200; 400; 403]);
      [intros user; apply update_user_answer | sublisted | listed].
Qed.

(** What each handler may do to the table. *)
Lemma register_evolves (req : Request) (w : World) :
  evolves w (world_after (run env (register req) w)).
Proof. unfold register. run_cases; constructor. Qed.

Lemma login_reads_only (secret : option string) (req : Request) (w : World) :
  world_after (run env (login secret req) w) = w.
Proof. unfold login. run_cases; reflexivity. Qed.

Lemma me_reads_only (req : Request) (user : Session) (w : World) :
  world_after (run env (me req user) w) = w.
Proof. unfold me. run_cases; reflexivity. Qed.

Lemma all_users_reads_only (req : Request) (user : Session) (w : World) :
  world_after (run env (all_users req user) w) = w.
Proof. unfold all_users. run_cases; reflexivity. Qed.

Lemma create_user_evolves (req : Request) (user : Session) (w : World) :
  evolves w (world_after (run env (create_user req user) w))
  /\ (is_string "admin" (claim_role (claims user)) = false ->
      world_after (run env (create_user req user) w) = w).
Proof.
  split.
  - unfold create_user. run_cases; constructor.
  - intros Hrole. unfold create_user. rewrite Hrole. reflexivity.
Qed.

Lemma update_user_evolves (req : Request) (user : Session) (w : World) :
  evolves w (world_after (run env (update_user req user) w))
  /\ (is_string "admin" (claim_role (claims user)) = false ->
      world_after (run env (update_user req user) w) = w).
Proof.
  split.
  - unfold update_user. run_cases; constructor.
  - intros Hrole. unfold update_user. rewrite Hrole. reflexivity.
Qed.

Lemma guarded_world (secret : option string) (h : Request -> Session -> Prog Response)
      (req : Request) (w : World) :
  world_after (run env (guarded secret h req) w) = w
  \/ exists user, result (run env (auth secret req) w) = inr user
                  /\ world_after (run env (guarded secret h req) w)
                     = world_after (run env (h req user) w).
Proof.
  rewrite guarded_run.
  destruct (result (run env (auth secret req) w)) as [rejected | user];
    [left; reflexivity | right; exists user; split; reflexivity].
Qed.

Lemma serve_evolves (secret : option string) (r : Route) (req : Request) (w : World) :
  evolves w (world_after (run env (serve secret r req) w)).
Proof.
  destruct r; cbn [serve].
  - apply register_evolves.
  - rewrite login_reads_only. constructor.
  - destruct (guarded_world secret me req w) as [-> | (user & _ & ->)];
      [| rewrite me_reads_only]; constructor.
  - destruct (guarded_world secret all_users req w) as [-> | (user & _ & ->)];
      [| rewrite all_users_reads_only]; constructor.
  - destruct (guarded_world secret create_user req w) as [-> | (user & _ & ->)];
      [constructor | apply create_user_evolves].
  - destruct (guarded_world secret update_user req w) as [-> | (user & _ & ->)];
      [constructor | apply update_user_evolves].
Qed.

(** X21: no route, on any request, removes a row, changes the [id] column of
    a row, or adds more than one row: the [id]s of the table before the
    request are the first [id]s of the table after it, and the clock is not
    touched. *)
Theorem rows_are_never_removed (secret : option string) (r : Route) (req : Request)
        (w : World) :
  let w' := world_after (run env (serve secret r req) w) in
  clock w' = clock w
  /\ (length (profiles w) <= length (profiles w') <= length (profiles w) + 1)%nat
  /\ map (fun row => row !! "id") (profiles w)
     `prefix_of` map (fun row => row !! "id") (profiles w').
Proof.
  intros w'. subst w'.
  destruct (serve_evolves secret r req w) as [| row | email username role id];
    cbn [clock profiles].
  - repeat split; [lia | lia | reflexivity].
  - repeat split; rewrite ?length_app; cbn [length]; try lia.
    rewrite map_app. apply prefix_app_r. reflexivity.
  - destruct (store_update_again email username role id (profiles w)) as [Hids _].
    repeat split.
    + unfold store_update. rewrite length_map. lia.
    + unfold store_update. rewrite length_map. lia.
    + rewrite Hids. reflexivity.
Qed.

(** X22: a request changes the table only on the register route, or on the
    create-user or update-user route after the gate verified a session whose
    role is ["admin"]; login, [/auth/me], all-users and every refused request
    leave it as it was. *)
Theorem table_changes_need_admin (secret : option string) (r : Route) (req : Request)
        (w : World) :
  world_after (run env (serve secret r req) w) <> w ->
  r = PostAuthRegister
  \/ ((r = PostAdminCreateUser \/ r = PutAdminUpdateUser)
      /\ exists user, result (run env (auth secret req) w) = inr user
                      /\ is_string "admin" (claim_role (claims user)) = true).
Proof.
  intros Hchanged. destruct r; cbn [serve] in Hchanged.
  - left. reflexivity.
  - exfalso. apply Hchanged. apply login_reads_only.
  - exfalso. apply Hchanged.
    destruct (guarded_world secret me req w) as [-> | (user & _ & ->)];
      [reflexivity | apply me_reads_only].
  - exfalso. apply Hchanged.
    destruct (guarded_world secret all_users req w) as [-> | (user & _ & ->)];
      [reflexivity | apply all_users_reads_only].
  - right. split; [left; reflexivity |].
    destruct (guarded_world secret create_user req w) as [Hsame | (user & Hgate & Hworld)];
      [contradiction |].
    exists user. split; [exact Hgate |].
    destruct (is_string "admin" (claim_role (claims user))) eqn:Hrole; [reflexivity |].
    exfalso. apply Hchanged. rewrite Hworld. apply create_user_evolves. exact Hrole.
  - right. split; [right; reflexivity |].
    destruct (guarded_world secret update_user req w) as [Hsame | (user & Hgate & Hworld)];
      [contradiction |].
    exists user. split; [exact Hgate |].
    destruct (is_string "admin" (claim_role (claims user))) eqn:Hrole; [reflexivity |].
    exfalso. apply Hchanged. rewrite Hworld. apply update_user_evolves. exact Hrole.
Qed.

End Route_composition.

(** ** Registration followed by login *)

Lemma rows_with_id_app (id : value) (rows : list object) (row : object) :
  rows_with_id id rows = [] -> has_id id row = true ->
  rows_with_id id (rows ++ [row]) = [row].
Proof.
  unfold rows_with_id. intros Hnone Hrow. rewrite list.filter_app, Hnone.
  cbn [app]. rewrite list.filter_cons_True by exact Hrow.
  rewrite list.filter_nil. reflexivity.
Qed.

Lemma profile_keys (a b c d : value) :
  NoDup (map fst [("id", a); ("email", b); ("username", c); ("role", d)]).
Proof. apply (bool_decide_unpack _). vm_compute. exact I. Qed.

Section Register_then_login.

Context `{TokenPrimitives}.
Variable env : Env.

Lemma login_run_found (secret : option string) (w : World) (req : Request)
      (uid : string) (profile : object) :
  provider_signIn env (body req !! "email") (body req !! "password")
    = mkSignedIn None (Some uid) ->
  store_fault env (DbSelectSingle (Some (JStr uid))) = None ->
  rows_with_id (Some (JStr uid)) (profiles w) = [profile] ->
  run env (login secret req) w
  = mkOutcome
      (mkResponse 200
         (JObj [("token",
                 JStr (jwt_sign (clock w)
                         (mkClaims (profile !! "id") (profile !! "email")
                                   (profile !! "role"))
                         (JWT_SECRET secret) seven_days));
                ("user", JObj (body_of [("id", profile !! "id");
                                        ("email", profile !! "email");
                                        ("username", profile !! "username");
                                        ("role", profile !! "role")]))]))
      w
      [AuthSignIn (body req !! "email") (body req !! "password");
       DbSelectSingle (Some (JStr uid));
       JwtSign (mkClaims (profile !! "id") (profile !! "email") (profile !! "role"))
               (JWT_SECRET secret) seven_days].
Proof.
  intros Hsignin Hstore Hrows. unfold login, call. cbn [bind run answer].
  rewrite Hsignin. cbn [signin_error signin_user bind run answer].
  rewrite Hstore, (store_single_unique _ _ _ Hrows). reflexivity.
Qed.

Lemma login_run_missing (secret : option string) (w : World) (req : Request)
      (uid : string) :
  provider_signIn env (body req !! "email") (body req !! "password")
    = mkSignedIn None (Some uid) ->
  rows_with_id (Some (JStr uid)) (profiles w) = [] ->
  result (run env (login secret req) w) = message 500 "Profile not found".
Proof.
  intros Hsignin Hrows. unfold login, call. cbn [bind run answer].
  rewrite Hsignin. cbn [signin_error signin_user bind run answer].
  destruct (store_fault env (DbSelectSingle (Some (JStr uid)))); [reflexivity |].
  unfold store_single. fold (rows_with_id (Some (JStr uid)) (profiles w)).
  rewrite Hrows. reflexivity.
Qed.

(** X23: when the provider creates an account under an id that no row of the
    table has and the store accepts the insert, a login that the provider
    signs in under that id, served after the registration, answers 200 with
    a token and the user of the registration: the claims signed and the user
    returned carry that id, the registered [email] and the role ["user"]. *)
Theorem register_then_login (secret : option string) (w : World)
        (registration credentials : Request) (uid : string) :
  provider_createUser env (body registration !! "email") (body registration !! "password")
    = CreatedUser uid ->
  provider_signIn env (body credentials !! "email") (body credentials !! "password")
    = mkSignedIn None (Some uid) ->
  rows_with_id (Some (JStr uid)) (profiles w) = [] ->
  (forall e, store_fault env e = None) ->
  let w1 := world_after (run env (register registration) w) in
  let c := mkClaims (Some (JStr uid)) (body registration !! "email")
                    (Some (JStr "user")) in
  run env (login secret credentials) w1
  = mkOutcome
      (mkResponse 200
         (JObj [("token", JStr (jwt_sign (clock w) c (JWT_SECRET secret) seven_days));
                ("user", JObj (body_of [("id", Some (JStr uid));
                                        ("email", body registration !! "email");
                                        ("username", body registration !! "username");
                                        ("role", Some (JStr "user"))]))]))
      w1
      [AuthSignIn (body credentials !! "email") (body credentials !! "password");
       DbSelectSingle (Some (JStr uid));
       JwtSign c (JWT_SECRET secret) seven_days].
Proof.
  intros Hcreated Hsignin Hfresh Hstore w1 c.
  set (row := obj [("id", Some (JStr uid)); ("email", body registration !! "email");
                   ("username", body registration !! "username");
                   ("role", Some (JStr "user"))]).
  assert (Hw1 : w1 = mkWorld (profiles w ++ [row]) (clock w)).
  { subst w1. unfold register, call. cbn [bind run answer]. rewrite Hcreated.
    cbn [bind run answer]. fold row. rewrite Hstore. reflexivity. }
  pose proof (profile_keys (Some (JStr uid)) (body registration !! "email")
                (body registration !! "username") (Some (JStr "user"))) as Hkeys.
  assert (Hid : row !! "id" = Some (JStr uid))
    by (apply (obj_lookup _ _ _ Hkeys); repeat constructor).
  assert (Hemail : row !! "email" = body registration !! "email")
    by (apply (obj_lookup _ _ _ Hkeys); repeat constructor).
  assert (Hname : row !! "username" = body registration !! "username")
    by (apply (obj_lookup _ _ _ Hkeys); repeat constructor).
  assert (Hrole : row !! "role" = Some (JStr "user"))
    by (apply (obj_lookup _ _ _ Hkeys); repeat constructor).
  assert (Hrows : rows_with_id (Some (JStr uid)) (profiles w1) = [row]).
  { rewrite Hw1. cbn [profiles]. apply rows_with_id_app; [exact Hfresh |].
    apply has_id_string. exact Hid. }
  rewrite (login_run_found secret w1 credentials uid row Hsignin (Hstore _) Hrows).
  rewrite Hid, Hemail, Hname, Hrole. subst c. rewrite Hw1. reflexivity.
Qed.

(** X24: when the provider creates an account under an id that no row of the
    table has and the store refuses the insert, [register] still answers
    200 and the table is unchanged; a login that the provider then signs in
    under that id is answered 500 with [{message: "Profile not found"}]. *)
Theorem failed_insert_blocks_login (secret : option string) (w : World)
        (registration credentials : Request) (uid failure : string) :
  provider_createUser env (body registration !! "email") (body registration !! "password")
    = CreatedUser uid ->
  provider_signIn env (body credentials !! "email") (body credentials !! "password")
    = mkSignedIn None (Some uid) ->
  rows_with_id (Some (JStr uid)) (profiles w) = [] ->
  store_fault env (DbInsert (obj [("id", Some (JStr uid));
                                  ("email", body registration !! "email");
                                  ("username", body registration !! "username");
                                  ("role", Some (JStr "user"))])) = Some failure ->
  let o := run env (register registration) w in
  status (result o) = 200
  /\ world_after o = w
  /\ result (run env (login secret credentials) (world_after o))
     = message 500 "Profile not found".
Proof.
  intros Hcreated Hsignin Hfresh Hfault o.
  assert (Hrun : o = mkOutcome (mkResponse 200 (JObj [("message", JStr "User registered")]))
                       w [AuthCreateUser (body registration !! "email")
                                         (body registration !! "password");
                          DbInsert (obj [("id", Some (JStr uid));
                                         ("email", body registration !! "email");
                                         ("username", body registration !! "username");
                                         ("role", Some (JStr "user"))])]).
  { subst o. unfold register, call. cbn [bind run answer]. rewrite Hcreated.
    cbn [bind run answer]. rewrite Hfault. reflexivity. }
  rewrite Hrun. cbn [result status world_after]. repeat split.
  apply (login_run_missing secret w credentials uid Hsignin Hfresh).
Qed.

End Register_then_login.

(** ** A token issued at login, presented at the gate *)

Section Token_at_the_gate.

Context `{TokenLaws} `{!TokenAlphabet}.
Variable env : Env.

Lemma jwt_verify_issued (c : Claims) (secret : string) (issued expires_in now : Z) :
  jwt_verify now (Some (jwt_sign issued c secret expires_in)) secret
  = if issued + expires_in <=? now then None
    else Some (mkSession c issued (issued + expires_in)).
Proof.
  unfold jwt_verify, jwt_sign.
  rewrite split_token
    by (apply token_header_free_of_dot || apply encode_session_free_of_dot
        || apply hmac_free_of_dot).
  rewrite String.eqb_refl, decode_encode_session. reflexivity.
Qed.

Lemma jwt_sign_free_of_space (c : Claims) (secret : string) (issued expires_in : Z) :
  free_of " "%char (jwt_sign issued c secret expires_in) = true.
Proof.
  unfold jwt_sign. rewrite !free_of_append.
  rewrite encode_session_free_of_space, hmac_free_of_space. reflexivity.
Qed.

(** X25: a request whose header is ["Bearer "] followed by a token that
    [jwt.sign] issued for the claims [c] with the service's secret and
    expiry passes the gate at every time before [issued + 7 days], with a
    session that carries exactly [c], and is answered 401 with
    [{message: "Invalid token"}] from that time on. *)
Theorem issued_token_at_the_gate (secret : option string) (c : Claims) (issued : Z)
        (w : World) (req : Request) :
  authorization req
    = Some ("Bearer " ++ jwt_sign issued c (JWT_SECRET secret) seven_days) ->
  (clock w < issued + seven_days ->
   result (run env (auth secret req) w)
   = inr (mkSession c issued (issued + seven_days)))
  /\ (issued + seven_days <= clock w ->
      result (run env (auth secret req) w) = inl (message 401 "Invalid token")).
Proof.
  intros Hheader.
  assert (Hcredential :
            bearer_credential ("Bearer " ++ jwt_sign issued c (JWT_SECRET secret) seven_days)
            = Some (jwt_sign issued c (JWT_SECRET secret) seven_days)).
  { unfold bearer_credential.
    change ("Bearer " ++ ?t) with ("Bearer" ++ String " "%char t).
    rewrite split_on_first by reflexivity.
    rewrite split_on_free by apply jwt_sign_free_of_space. reflexivity. }
  assert (Hrun : result (run env (auth secret req) w)
                 = if issued + seven_days <=? clock w
                   then inl (message 401 "Invalid token")
                   else inr (mkSession c issued (issued + seven_days))).
  { unfold auth, call. rewrite Hheader.
    change (String.eqb ("Bearer " ++ ?t) "") with false. cbn [bind run answer].
    rewrite Hcredential, jwt_verify_issued.
    destruct (issued + seven_days <=? clock w); reflexivity. }
  rewrite Hrun. split; intros Htime.
  - destruct (Z.leb_spec (issued + seven_days) (clock w)); [lia | reflexivity].
  - destruct (Z.leb_spec (issued + seven_days) (clock w)); [reflexivity | lia].
Qed.

End Token_at_the_gate.

(** ** The further properties on concrete requests *)

Lemma binary_free_of_space (p : positive) : free_of " "%char (binary p) = true.
Proof. induction p as [q IH | q IH |]; simpl; auto. Qed.

Lemma plain_alphabet : @TokenAlphabet plain_primitives.
Proof. split; intros; apply binary_free_of_space. Qed.

Lemma register_provider_refusal_witness :
  run (H := plain_primitives) refusing_env (register sample_registration) sample_world
  = mkOutcome (message 400 "User already registered") sample_world
              [AuthCreateUser (body sample_registration !! "email")
                              (body sample_registration !! "password")].
Proof.
  exact (register_provider_refusal (H := plain_primitives) refusing_env sample_world
           sample_registration "User already registered" eq_refl).
Defined.

Lemma login_without_profile_witness :
  result (run (H := plain_primitives) fresh_env (login None sample_login) sample_world)
  = message 500 "Profile not found".
Proof.
  rewrite (login_without_profile (H := plain_primitives) fresh_env None sample_world
             sample_login "u-2" eq_refl).
  - reflexivity.
  - right. intros row. vm_compute. discriminate.
Defined.

Lemma login_signs_profile_witness :
  sample_row !! "id" = Some (JStr "u-1")
  /\ calls (run (H := plain_primitives) easy_env (login None sample_login) sample_world)
     = [AuthSignIn (body sample_login !! "email") (body sample_login !! "password");
        DbSelectSingle (Some (JStr "u-1"));
        JwtSign (mkClaims (sample_row !! "id") (sample_row !! "email")
                          (sample_row !! "role"))
                "YOUR_SECRET_KEY" seven_days].
Proof.
  destruct (login_signs_profile (H := plain_primitives) easy_env None sample_world
              sample_login "u-1" sample_row eq_refl eq_refl eq_refl) as [Hrun Hid].
  split; [exact Hid |]. rewrite Hrun. reflexivity.
Defined.

Lemma all_users_lists_table_witness :
  result (run (H := plain_primitives) easy_env
              (all_users (admin_request ∅ "") (sample_session "admin")) sample_world)
  = mkResponse 200 (JArr [row_json sample_row]).
Proof.
  destruct (all_users_lists_table (H := plain_primitives) easy_env sample_world
              (admin_request ∅ "") (sample_session "admin") eq_refl)
    as (_ & _ & Hok & _).
  exact (Hok eq_refl).
Defined.

Lemma create_user_requires_fields_witness :
  run (H := plain_primitives) easy_env
      (create_user (admin_request (obj [("email", Some (JStr "c@x.com"))]) "")
                   (sample_session "admin")) sample_world
  = mkOutcome (message 400 "All fields required") sample_world [].
Proof.
  apply (create_user_requires_fields (H := plain_primitives) easy_env sample_world
           (admin_request (obj [("email", Some (JStr "c@x.com"))]) "")
           (sample_session "admin") eq_refl).
  right. left. reflexivity.
Defined.

Lemma create_user_provider_refusal_witness :
  result (run (H := plain_primitives) refusing_env
              (create_user (admin_request sample_creation "") (sample_session "admin"))
              sample_world)
  = message 400 "User already registered".
Proof.
  rewrite (create_user_provider_refusal (H := plain_primitives) refusing_env sample_world
             (admin_request sample_creation "") (sample_session "admin")
             "User already registered" eq_refl eq_refl eq_refl eq_refl eq_refl eq_refl).
  reflexivity.
Defined.

Lemma create_user_insert_failure_witness :
  let o := run (H := plain_primitives) failing_store_env
               (create_user (admin_request sample_creation "") (sample_session "admin"))
               sample_world in
  result o = message 500 "Profile insert failed" /\ world_after o = sample_world.
Proof.
  intros o. subst o.
  rewrite (create_user_insert_failure (H := plain_primitives) failing_store_env
             sample_world (admin_request sample_creation "") (sample_session "admin")
             "u-2" "duplicate key value violates unique constraint"
             eq_refl eq_refl eq_refl eq_refl eq_refl eq_refl eq_refl).
  split; reflexivity.
Defined.

Lemma create_user_appends_row_witness :
  let o := run (H := plain_primitives) fresh_env
               (create_user (admin_request sample_creation "") (sample_session "admin"))
               sample_world in
  status (result o) = 200
  /\ map (fun row => row !! "role") (profiles (world_after o))
     = [Some (JStr "user"); Some (JStr "admin")].
Proof.
  intros o. subst o.
  destruct (create_user_appends_row (H := plain_primitives) fresh_env sample_world
              (admin_request sample_creation "") (sample_session "admin") "u-2"
              eq_refl eq_refl eq_refl eq_refl eq_refl eq_refl eq_refl)
    as (Hrun & _).
  rewrite Hrun. split; reflexivity.
Defined.

Lemma update_user_store_failure_witness :
  run (H := plain_primitives) failing_store_env
      (update_user (admin_request (obj [("email", Some (JStr "new@x.com"))]) "u-1")
                   (sample_session "admin")) sample_world
  = mkOutcome (message 400 "duplicate key value violates unique constraint")
              sample_world
              [DbUpdate (obj [("email", Some (JStr "new@x.com"))]) "u-1"].
Proof.
  exact (update_user_store_failure (H := plain_primitives) failing_store_env sample_world
           (admin_request (obj [("email", Some (JStr "new@x.com"))]) "u-1")
           (sample_session "admin") "duplicate key value violates unique constraint"
           eq_refl eq_refl).
Defined.

Lemma update_user_unknown_id_witness :
  let o := run (H := plain_primitives) easy_env
               (update_user (admin_request (obj [("username", Some (JStr "z"))]) "u-9")
                            (sample_session "admin")) sample_world in
  result o = mkResponse 200 (JObj [("message", JStr "User updated successfully")])
  /\ world_after o = sample_world.
Proof.
  refine (update_user_unknown_id (H := plain_primitives) easy_env sample_world
            (admin_request (obj [("username", Some (JStr "z"))]) "u-9")
            (sample_session "admin") eq_refl _ eq_refl _).
  - repeat constructor.
  - left. reflexivity.
Defined.

Lemma update_user_empty_body_witness :
  run (H := plain_primitives) easy_env
      (update_user (admin_request ∅ "u-1") (sample_session "admin")) sample_world
  = mkOutcome (mkResponse 200 (JObj [("message", JStr "User updated successfully")]))
              sample_world [DbUpdate ∅ "u-1"].
Proof.
  exact (update_user_empty_body (H := plain_primitives) easy_env sample_world
           (admin_request ∅ "u-1") (sample_session "admin")
           eq_refl eq_refl eq_refl eq_refl eq_refl).
Defined.

Lemma update_user_falsy_email_witness :
  let patch := obj [("email", Some (JStr ""))] in
  calls (run (H := plain_primitives) easy_env
             (update_user (admin_request patch "u-1") (sample_session "admin"))
             sample_world)
  = [DbUpdate patch "u-1"].
Proof.
  intros patch.
  exact (proj1 (proj2 (update_user_falsy_email (H := plain_primitives) easy_env
                         sample_world (admin_request patch "u-1")
                         (sample_session "admin") (JStr "")
                         eq_refl eq_refl eq_refl eq_refl))).
Defined.

Lemma update_user_twice_witness :
  let req := admin_request (obj [("username", Some (JStr "b"))]) "u-1" in
  let w1 := world_after (run (H := plain_primitives) easy_env
                             (update_user req (sample_session "admin")) sample_world) in
  world_after (run (H := plain_primitives) easy_env
                   (update_user req (sample_session "admin")) w1) = w1.
Proof.
  intros req w1.
  exact (proj2 (proj2 (update_user_twice (H := plain_primitives) easy_env sample_world
                         req (sample_session "admin") eq_refl eq_refl))).
Defined.

Lemma header_without_space_is_refused_witness :
  run (H := plain_primitives) easy_env
      (serve None GetAuthMe (mkRequest (Some (sample_token "user")) ∅ "")) sample_world
  = mkOutcome (message 401 "Invalid token") sample_world
              [JwtVerify None "YOUR_SECRET_KEY"].
Proof.
  refine (header_without_space_is_refused (H := plain_primitives) easy_env None
            GetAuthMe me sample_world (mkRequest (Some (sample_token "user")) ∅ "")
            (sample_token "user") eq_refl eq_refl _ _).
  - vm_compute. discriminate.
  - vm_compute. reflexivity.
Defined.

Lemma gate_hands_session_to_handler_witness :
  exists header,
    authorization (bearer (sample_token "user") ∅) = Some header
    /\ jwt_verify (H := plain_primitives) 1000 (bearer_credential header) "YOUR_SECRET_KEY"
       = Some (sample_session "user").
Proof.
  destruct (gate_hands_session_to_handler (H := plain_primitives) easy_env None
              GetAuthMe me sample_world (bearer (sample_token "user") ∅)
              (sample_session "user") eq_refl)
    as (header & Hheader & Hverify & _).
  - vm_compute. reflexivity.
  - exists header. split; [exact Hheader | exact Hverify].
Defined.

Lemma table_changes_need_admin_witness :
  PostAuthRegister = PostAuthRegister
  \/ ((PostAuthRegister = PostAdminCreateUser \/ PostAuthRegister = PutAdminUpdateUser)
      /\ exists user,
           result (run (H := plain_primitives) fresh_env (auth None sample_registration)
                       sample_world) = inr user
           /\ is_string "admin" (claim_role (claims user)) = true).
Proof.
  apply (table_changes_need_admin (H := plain_primitives) fresh_env None PostAuthRegister
           sample_registration sample_world).
  intros Hsame. apply (f_equal (fun w => length (profiles w))) in Hsame.
  vm_compute in Hsame. discriminate Hsame.
Defined.

Lemma register_then_login_witness :
  let w1 := world_after (run (H := plain_primitives) fresh_env
                             (register sample_registration) sample_world) in
  calls (run (H := plain_primitives) fresh_env (login None sample_login) w1)
  = [AuthSignIn (body sample_login !! "email") (body sample_login !! "password");
     DbSelectSingle (Some (JStr "u-2"));
     JwtSign (mkClaims (Some (JStr "u-2")) (body sample_registration !! "email")
                       (Some (JStr "user")))
             "YOUR_SECRET_KEY" seven_days].
Proof.
  intros w1. subst w1.
  rewrite (register_then_login (H := plain_primitives) fresh_env None sample_world
             sample_registration sample_login "u-2" eq_refl eq_refl eq_refl
             (fun _ => eq_refl)).
  reflexivity.
Defined.

Lemma failed_insert_blocks_login_witness :
  let o := run (H := plain_primitives) orphan_env (register sample_registration)
               sample_world in
  status (result o) = 200
  /\ world_after o = sample_world
  /\ result (run (H := plain_primitives) orphan_env (login None sample_login)
                 (world_after o))
     = message 500 "Profile not found".
Proof.
  exact (failed_insert_blocks_login (H := plain_primitives) orphan_env None sample_world
           sample_registration sample_login "u-2" "permission denied for table profiles"
           eq_refl eq_refl eq_refl eq_refl).
Defined.

Lemma issued_token_at_the_gate_witness :
  result (run (H := plain_primitives) easy_env
              (auth None (bearer (sample_token "user") ∅)) sample_world)
  = inr (sample_session "user")
  /\ result (run (H := plain_primitives) easy_env
                 (auth None (bearer (sample_token "user") ∅))
                 (mkWorld [] (1000 + seven_days)))
     = inl (message 401 "Invalid token").
Proof.
  split.
  - apply (proj1 (issued_token_at_the_gate (H := plain_primitives) (H0 := plain_laws)
                    (H1 := plain_alphabet) easy_env None
                    (sample_claims "user") 1000 sample_world
                    (bearer (sample_token "user") ∅) eq_refl)).
    vm_compute. reflexivity.
  - apply (proj2 (issued_token_at_the_gate (H := plain_primitives) (H0 := plain_laws)
                    (H1 := plain_alphabet) easy_env None
                    (sample_claims "user") 1000 (mkWorld [] (1000 + seven_days))
                    (bearer (sample_token "user") ∅) eq_refl)).
    vm_compute. discriminate.
Defined.
